(** * clarifai-go: the request/response layer of [requests.go]

    A shallow embedding of [requests.go]: the request and response
    structs with their [json] tags, the precondition checks, and the four
    client methods [Info], [Tag], [Color] and [Feedback].

    Go values are modelled as follows.
    - [string] and [[]byte] are Rocq strings (sequences of 8-bit
      characters).
    - A slice is [option (list A)]: [None] is the [nil] slice, [Some []]
      an allocated slice of length zero.  [Feedback] tests slices against
      [nil] whereas [Tag] and [Color] test [len], so the two must be
      kept apart.
    - A pointer result ([*TagResp], [*big.Int]) is an [option].
    - [error] is an inductive type; the [nil] error is [None].
    - [int] is a 64-bit integer held in [Z]; [big.Int] is [Z].
    - [float32] and [float64] are binary floating-point numbers
      ([spec_float] at precisions 24 and 53), read from a literal with
      rounding to nearest, ties to even.
    - [client.commonHTTPRequest] is not part of [requests.go]: a client
      is a record holding it as a function of the call and of the state
      of the outside world.  Calls are logged, so that "no transport
      call" is a statement about the log. *)

From Stdlib Require Import String Ascii List Bool Arith NArith ZArith Lia.
From Stdlib Require Import DecimalString DecimalZ SpecFloat.
Import ListNotations.

Local Open Scope string_scope.

(** ** Go basics *)

Definition slice (A : Type) : Type := option (list A).

Definition len {A : Type} (s : slice A) : nat :=
  match s with
  | None => 0
  | Some l => List.length l
  end.

(** The values of Go's [error] interface that occur here. *)
Inductive error : Type :=
| errorString (s : string)                       (* errors.New(s) *)
| SyntaxError                                    (* *json.SyntaxError *)
| UnmarshalTypeError (Value : string) (Type_ : string)
                                                 (* *json.UnmarshalTypeError *)
| foreignError (description : string).           (* any other error value *)

Module errors.
Definition New (s : string) : error := errorString s.
End errors.

(** Characters that cannot be written inside a Rocq string literal. *)
Definition dquote : ascii := "034"%char.
Definition bslash : ascii := "092"%char.

(** [dq s] is [s] with every apostrophe replaced by a double quote; it
    is only used to write JSON texts down. *)
Fixpoint dq (s : string) : string :=
  match s with
  | EmptyString => EmptyString
  | String c t => String (if Ascii.eqb c "'"%char then dquote else c) (dq t)
  end.

(** ** UTF-8, as in package [unicode/utf8] *)

Module utf8.

Definition RuneError : N := 0xFFFD.

Definition between (lo hi : N) (c : ascii) : bool :=
  let b := N_of_ascii c in (N.leb lo b && N.leb b hi)%bool.

Definition cont (c : ascii) : bool := between 0x80 0xBF c.

Definition low6 (c : ascii) : N := N.modulo (N_of_ascii c) 64.

(** [DecodeRune s] is the first rune of [s] and its width in bytes;
    an ill-formed sequence gives [(RuneError, 1)]. *)
Definition DecodeRune (s : string) : N * nat :=
  match s with
  | EmptyString => (RuneError, 0)
  | String c0 t0 =>
    let b0 := N_of_ascii c0 in
    let bad := (RuneError, 1) in
    if N.ltb b0 0x80 then (b0, 1) else
    match t0 with
    | EmptyString => bad
    | String c1 t1 =>
      if between 0xC2 0xDF c0 then
        if cont c1 then ((N.modulo b0 32 * 64 + low6 c1)%N, 2) else bad
      else
        let lo1 := if N.eqb b0 0xE0 then 0xA0%N
                   else if N.eqb b0 0xF0 then 0x90%N else 0x80%N in
        let hi1 := if N.eqb b0 0xED then 0x9F%N
                   else if N.eqb b0 0xF4 then 0x8F%N else 0xBF%N in
        if (negb (between 0xE0 0xF4 c0) || negb (between lo1 hi1 c1))%bool
        then bad else
        match t1 with
        | EmptyString => bad
        | String c2 t2 =>
          if negb (cont c2) then bad else
          if N.ltb b0 0xF0 then
            (((N.modulo b0 16 * 64 + low6 c1) * 64 + low6 c2)%N, 3)
          else
            match t2 with
            | EmptyString => bad
            | String c3 _ =>
              if cont c3 then
                ((((N.modulo b0 8 * 64 + low6 c1) * 64 + low6 c2) * 64
                  + low6 c3)%N, 4)
              else bad
            end
        end
    end
  end.

Definition byte (n : N) : string := String (ascii_of_N n) EmptyString.

Definition tail6 (n : N) : string := byte (0x80 + N.modulo n 64).

Definition EncodeRune (r : N) : string :=
  let three (x : N) :=
    byte (0xE0 + N.div x 4096) ++ tail6 (N.div x 64) ++ tail6 x in
  if N.ltb r 0x80 then byte r
  else if N.ltb r 0x800 then byte (0xC0 + N.div r 64) ++ tail6 r
  else if ((N.leb 0xD800 r && N.leb r 0xDFFF) || N.ltb 0x10FFFF r)%bool
       then three RuneError
  else if N.ltb r 0x10000 then three r
  else byte (0xF0 + N.div r 262144) ++ tail6 (N.div r 4096)
            ++ tail6 (N.div r 64) ++ tail6 r.

End utf8.

(** ** Lexical elements of JSON, as in [encoding/json]'s scanner *)

Module scanner.

Definition is_space (c : ascii) : bool :=
  match c with
  | " "%char | "009"%char | "010"%char | "013"%char => true
  | _ => false
  end.

Fixpoint skip_space (s : string) : string :=
  match s with
  | String c t => if is_space c then skip_space t else s
  | EmptyString => s
  end.

Definition is_digit (c : ascii) : bool :=
  match c with
  | "0"%char | "1"%char | "2"%char | "3"%char | "4"%char
  | "5"%char | "6"%char | "7"%char | "8"%char | "9"%char => true
  | _ => false
  end.

Fixpoint span_digits (s : string) : string * string :=
  match s with
  | String c t =>
    if is_digit c then let (ds, r) := span_digits t in (String c ds, r)
    else (EmptyString, s)
  | EmptyString => (EmptyString, s)
  end.

(** A number literal: an optional minus sign; a zero, or a non-zero
    digit followed by digits; optionally a point and one or more
    digits; optionally [e] or [E], an optional sign and one or more
    digits.  Each part gives the text it matched and the text after
    it. *)
Definition lex_sign (s : string) : string * string :=
  match s with
  | String c t => if Ascii.eqb c "-"%char then ("-", t) else ("", s)
  | EmptyString => ("", s)
  end.

Definition lex_int (s : string) : option (string * string) :=
  match s with
  | EmptyString => None
  | String c t =>
    if negb (is_digit c) then None
    else if Ascii.eqb c "0"%char then Some (String c EmptyString, t)
    else let (ds, r) := span_digits t in Some (String c ds, r)
  end.

Definition lex_frac (s : string) : option (string * string) :=
  match s with
  | EmptyString => Some (EmptyString, s)
  | String c t =>
    if Ascii.eqb c "."%char then
      match span_digits t with
      | (EmptyString, _) => None
      | (ds, r) => Some (String c ds, r)
      end
    else Some (EmptyString, s)
  end.

Definition lex_expsign (s : string) : string * string :=
  match s with
  | String c t =>
    if (Ascii.eqb c "+"%char || Ascii.eqb c "-"%char)%bool
    then (String c EmptyString, t) else ("", s)
  | EmptyString => ("", s)
  end.

Definition lex_exp (s : string) : option (string * string) :=
  match s with
  | EmptyString => Some (EmptyString, s)
  | String e t =>
    if (Ascii.eqb e "e"%char || Ascii.eqb e "E"%char)%bool then
      let (sg, t') := lex_expsign t in
      match span_digits t' with
      | (EmptyString, _) => None
      | (ds, r) => Some (String e (sg ++ ds), r)
      end
    else Some (EmptyString, s)
  end.

Definition lex_number (s : string) : option (string * string) :=
  let (sign, s1) := lex_sign s in
  match lex_int s1 with
  | None => None
  | Some (ip, r) =>
    match lex_frac r with
    | None => None
    | Some (fp, r1) =>
      match lex_exp r1 with
      | None => None
      | Some (ep, r2) => Some (sign ++ ip ++ fp ++ ep, r2)
      end
    end
  end.

End scanner.

(** ** Numbers, as packages [strconv] and [math/big] read them *)

Module strconv.

(** The value of a string of decimal digits, most significant first. *)
Fixpoint digits_value (acc : N) (s : string) : option N :=
  match s with
  | EmptyString => Some acc
  | String c t =>
    if scanner.is_digit c
    then digits_value (acc * 10 + (N_of_ascii c - 48))%N t
    else None
  end.

(** [ParseInt(s, 10, 64)]: an optional sign, then one or more digits;
    [None] on a syntax error and when the value does not fit in 64
    bits. *)
Definition ParseInt (s : string) : option Z :=
  let (neg, ds) := match s with
                   | String "-"%char t => (true, t)
                   | String "+"%char t => (false, t)
                   | _ => (false, s)
                   end in
  match ds with
  | EmptyString => None
  | _ =>
    match digits_value 0 ds with
    | None => None
    | Some n =>
      let z := if neg then Z.opp (Z.of_N n) else Z.of_N n in
      if (Z.leb (- 2 ^ 63) z && Z.ltb z (2 ^ 63))%bool then Some z else None
    end
  end.

(** The parts of a number literal: sign, digits of the integer part,
    digits of the fraction, exponent. *)
Definition split_literal (s : string) : option (bool * string * string * Z) :=
  let (neg, s1) := match s with
                   | String "-"%char t => (true, t)
                   | _ => (false, s)
                   end in
  let (ip, r) := scanner.span_digits s1 in
  let (fp, r1) := match r with
                  | String "."%char t => scanner.span_digits t
                  | _ => (EmptyString, r)
                  end in
  match r1 with
  | EmptyString => Some (neg, ip, fp, 0%Z)
  | String e t =>
    if (Ascii.eqb e "e"%char || Ascii.eqb e "E"%char)%bool then
      let (eneg, ds) := match t with
                        | String "-"%char t' => (true, t')
                        | String "+"%char t' => (false, t')
                        | _ => (false, t)
                        end in
      match ds, digits_value 0 ds with
      | String _ _, Some n =>
        Some (neg, ip, fp, if eneg then Z.opp (Z.of_N n) else Z.of_N n)
      | _, _ => None
      end
    else None
  end.

(** [ParseFloat(s, bitSize)] on a JSON number literal: the nearest
    floating-point number of precision [prec] (ties to even); [None]
    when the literal is malformed or its value is out of range. *)
Definition ParseFloat (prec emax : Z) (s : string) : option spec_float :=
  match split_literal s with
  | None => None
  | Some (neg, ip, fp, e) =>
    match ip, digits_value 0 (ip ++ fp) with
    | String _ _, Some m =>
      let e10 := (e - Z.of_nat (String.length fp))%Z in
      let x :=
        match m with
        | N0 => S754_zero neg
        | Npos p =>
          if Z.leb 0 e10
          then binary_round prec emax neg (p * Z.to_pos (10 ^ e10))%positive 0
          else SFdiv prec emax (S754_finite neg p 0)
                     (S754_finite false (Z.to_pos (10 ^ (- e10))) 0)
        end in
      match x with
      | S754_zero _ | S754_finite _ _ _ => Some x
      | _ => None
      end
    | _, _ => None
    end
  end.

End strconv.

Module big.

(** [Int.String]: the decimal form. *)
Definition String_ (z : Z) : string := NilZero.string_of_int (Z.to_int z).

(** [Int.UnmarshalJSON] on the text of a JSON value other than
    [null]: only an integer literal is accepted. *)
Definition UnmarshalJSON (text : string) : option Z :=
  match scanner.lex_number text with
  | Some (lit, EmptyString) => option_map Z.of_int (NilZero.int_of_string lit)
  | _ => None
  end.

End big.

(** ** JSON texts, as package [encoding/json] writes and reads them

    [encoding/json] belongs to Go, not to this repository.  The model
    follows its documented behaviour on the types declared in
    [requests.go]: [render] is the text [json.Marshal] produces for a
    JSON value, [scan] the value a text denotes (the syntax check that
    [json.Unmarshal] runs before it stores anything). *)

Module json.

#[warnings="-register-all"]
Inductive value : Type :=
| JNull
| JBool (b : bool)
| JNumber (lit : string)            (* the literal, as written *)
| JString (s : string)
| JArray (elems : list value)
| JObject (members : list (string * value)).

(** *** Writing *)

Definition hex (n : N) : ascii :=
  if N.ltb n 10 then ascii_of_N (48 + n) else ascii_of_N (87 + n).

Definition u00 (c : ascii) : string :=
  let b := N_of_ascii c in
  String bslash ("u00" ++ String (hex (N.div b 16))
                                 (String (hex (N.modulo b 16)) EmptyString)).

(** One ASCII byte of a string, with HTML escaping on as in
    [json.Marshal]. *)
Definition escape_ascii (c : ascii) : string :=
  match c with
  | "034"%char | "092"%char => String bslash (String c EmptyString)
  | "008"%char => String bslash "b"
  | "012"%char => String bslash "f"
  | "010"%char => String bslash "n"
  | "013"%char => String bslash "r"
  | "009"%char => String bslash "t"
  | "<"%char | ">"%char | "&"%char => u00 c
  | _ => if N.ltb (N_of_ascii c) 0x20 then u00 c else String c EmptyString
  end.

(** The body of a quoted string.  [skip] counts the bytes that remain
    of a rune already examined; they are copied when [copy] is set. *)
Fixpoint escape_from (skip : nat) (copy : bool) (s : string) : string :=
  match s with
  | EmptyString => EmptyString
  | String c t =>
    match skip with
    | S k => if copy then String c (escape_from k copy t)
             else escape_from k copy t
    | O =>
      if N.ltb (N_of_ascii c) 0x80 then escape_ascii c ++ escape_from 0 true t
      else
        let (r, size) := utf8.DecodeRune s in
        if (N.eqb r utf8.RuneError && Nat.eqb size 1)%bool
        then String bslash "ufffd" ++ escape_from 0 true t
        else if (N.eqb r 0x2028 || N.eqb r 0x2029)%bool
        then String bslash "u202" ++ String (hex (N.modulo r 16))
               (escape_from (size - 1) false t)
        else String c (escape_from (size - 1) true t)
    end
  end.

Definition quote (s : string) : string :=
  String dquote (escape_from 0 true s ++ String dquote EmptyString).

Fixpoint render (v : value) : string :=
  match v with
  | JNull => "null"
  | JBool true => "true"
  | JBool false => "false"
  | JNumber lit => lit
  | JString s => quote s
  | JArray elems =>
    "[" ++ (fix items (l : list value) : string :=
              match l with
              | [] => ""
              | x :: r => render x ++
                          match r with [] => "" | _ => "," ++ items r end
              end) elems ++ "]"
  | JObject members =>
    "{" ++ (fix items (l : list (string * value)) : string :=
              match l with
              | [] => ""
              | (k, x) :: r => quote k ++ ":" ++ render x ++
                               match r with [] => "" | _ => "," ++ items r end
              end) members ++ "}"
  end.

(** *** Reading *)

Definition hexval (c : ascii) : option N :=
  let b := N_of_ascii c in
  if scanner.is_digit c then Some (b - 48)%N
  else if utf8.between 97 102 c then Some (b - 87)%N
  else if utf8.between 65 70 c then Some (b - 55)%N
  else None.

Definition getu4 (a b c d : ascii) : option N :=
  match hexval a, hexval b, hexval c, hexval d with
  | Some x, Some y, Some z, Some w => Some (((x * 16 + y) * 16 + z) * 16 + w)%N
  | _, _, _, _ => None
  end.

Definition simple_escape (e : ascii) : option ascii :=
  match e with
  | "034"%char | "092"%char | "/"%char => Some e
  | "b"%char => Some "008"%char
  | "f"%char => Some "012"%char
  | "n"%char => Some "010"%char
  | "r"%char => Some "013"%char
  | "t"%char => Some "009"%char
  | _ => None
  end.

Definition IsSurrogate (r : N) : bool := (N.leb 0xD800 r && N.ltb r 0xE000)%bool.

(** [utf16.DecodeRune]: the code point of a surrogate pair. *)
Definition DecodeSurrogates (r1 r2 : N) : option N :=
  if (N.leb 0xD800 r1 && N.ltb r1 0xDC00 && N.leb 0xDC00 r2 && N.ltb r2 0xE000)%bool
  then Some (0x10000 + (r1 - 0xD800) * 1024 + (r2 - 0xDC00))%N
  else None.

Definition prepend (p : string) (x : option (string * string)) :=
  match x with
  | Some (s, r) => Some (p ++ s, r)
  | None => None
  end.

(** The escape that follows a backslash: the bytes it stands for and
    the number of characters it takes up after the backslash.  A
    [\u] escape of a high surrogate takes the [\u] escape of a low
    surrogate that follows it; a surrogate on its own stands for
    U+FFFD. *)
Definition second_u4 (t : string) : option N :=
  match t with
  | String b (String u (String g1 (String g2 (String g3 (String g4 _))))) =>
    if (Ascii.eqb b bslash && Ascii.eqb u "u"%char)%bool
    then getu4 g1 g2 g3 g4 else None
  | _ => None
  end.

Definition unescape (t : string) : option (string * nat) :=
  match t with
  | EmptyString => None
  | String e t1 =>
    match simple_escape e with
    | Some x => Some (String x EmptyString, 1)
    | None =>
      if negb (Ascii.eqb e "u"%char) then None else
      match t1 with
      | String h1 (String h2 (String h3 (String h4 t2))) =>
        match getu4 h1 h2 h3 h4 with
        | None => None
        | Some rr =>
          if negb (IsSurrogate rr) then Some (utf8.EncodeRune rr, 5)
          else
            match second_u4 t2 with
            | None => Some (utf8.EncodeRune utf8.RuneError, 5)
            | Some rr1 =>
              match DecodeSurrogates rr rr1 with
              | Some r => Some (utf8.EncodeRune r, 11)
              | None => Some (utf8.EncodeRune utf8.RuneError, 5)
              end
            end
        end
      | _ => None
      end
    end
  end.

(** The rest of a string literal after its opening quote: the string
    it denotes and the text after the closing quote.  [skip] counts the
    characters that remain of a rune or of an escape already examined;
    those of a rune are copied ([copy]), those of an escape are not. *)
Fixpoint lex_string (skip : nat) (copy : bool) (s : string)
  : option (string * string) :=
  match s with
  | EmptyString => None
  | String c t =>
    match skip with
    | S k => if copy then prepend (String c EmptyString) (lex_string k copy t)
             else lex_string k copy t
    | O =>
      if Ascii.eqb c dquote then Some (EmptyString, t)
      else if Ascii.eqb c bslash then
        match unescape t with
        | Some (bytes, width) => prepend bytes (lex_string width false t)
        | None => None
        end
      else if N.ltb (N_of_ascii c) 0x20 then None
      else if N.ltb (N_of_ascii c) 0x80
      then prepend (String c EmptyString) (lex_string 0 true t)
      else
        let (_, size) := utf8.DecodeRune s in
        if Nat.eqb size 1
        then prepend (utf8.EncodeRune utf8.RuneError) (lex_string 0 true t)
        else prepend (String c EmptyString) (lex_string (size - 1) true t)
    end
  end.

Definition maxNestingDepth : N := 10000.

(** [s] without its prefix [kw], when it has it. *)
Fixpoint strip_prefix (kw s : string) : option string :=
  match kw with
  | EmptyString => Some s
  | String a kw' =>
    match s with
    | String b s' => if Ascii.eqb a b then strip_prefix kw' s' else None
    | EmptyString => None
    end
  end.

Definition keyword (kw : string) (v : value) (s : string) : option (value * string) :=
  match strip_prefix kw s with
  | Some r => Some (v, r)
  | None => None
  end.

(** The text after the character [c], when [s] starts with [c] after
    white space. *)
Definition expect (c : ascii) (s : string) : option string :=
  match scanner.skip_space s with
  | String c' r => if Ascii.eqb c' c then Some r else None
  | EmptyString => None
  end.

(** Recursive descent.  Each of the three productions is written over
    the parsers of its parts; [depth] counts the enclosing arrays and
    objects. *)
Definition parser (A : Type) : Type := N -> string -> option (A * string).

Definition value_at (members : parser (list (string * value)))
           (elems : parser (list value)) : parser value :=
  fun depth s =>
    match scanner.skip_space s with
    | EmptyString => None
    | String c t =>
      if Ascii.eqb c "{"%char then
        if N.ltb maxNestingDepth (depth + 1) then None else
        match expect "}"%char t with
        | Some r => Some (JObject [], r)
        | None => match members (depth + 1)%N t with
                  | Some (ms, r) => Some (JObject ms, r)
                  | None => None
                  end
        end
      else if Ascii.eqb c "["%char then
        if N.ltb maxNestingDepth (depth + 1) then None else
        match expect "]"%char t with
        | Some r => Some (JArray [], r)
        | None => match elems (depth + 1)%N t with
                  | Some (vs, r) => Some (JArray vs, r)
                  | None => None
                  end
        end
      else if Ascii.eqb c dquote then
        match lex_string 0 true t with
        | Some (x, r) => Some (JString x, r)
        | None => None
        end
      else if Ascii.eqb c "t"%char then keyword "true" (JBool true) (String c t)
      else if Ascii.eqb c "f"%char then keyword "false" (JBool false) (String c t)
      else if Ascii.eqb c "n"%char then keyword "null" JNull (String c t)
      else
        match scanner.lex_number (String c t) with
        | Some (lit, r) => Some (JNumber lit, r)
        | None => None
        end
    end.

Definition members_at (pvalue : parser value)
           (members : parser (list (string * value)))
  : parser (list (string * value)) :=
  fun depth s =>
    match expect dquote s with
    | None => None
    | Some t =>
      match lex_string 0 true t with
      | None => None
      | Some (k, r) =>
        match expect ":"%char r with
        | None => None
        | Some r1 =>
          match pvalue depth r1 with
          | None => None
          | Some (v, r2) =>
            match expect ","%char r2 with
            | Some r3 =>
              match members depth r3 with
              | Some (ms, r4) => Some ((k, v) :: ms, r4)
              | None => None
              end
            | None =>
              match expect "}"%char r2 with
              | Some r3 => Some ([(k, v)], r3)
              | None => None
              end
            end
          end
        end
      end
    end.

Definition elems_at (pvalue : parser value) (elems : parser (list value))
  : parser (list value) :=
  fun depth s =>
    match pvalue depth s with
    | None => None
    | Some (v, r) =>
      match expect ","%char r with
      | Some r1 =>
        match elems depth r1 with
        | Some (vs, r2) => Some (v :: vs, r2)
        | None => None
        end
      | None =>
        match expect "]"%char r with
        | Some r1 => Some ([v], r1)
        | None => None
        end
      end
    end.

(** [fuel] bounds the number of nested calls. *)
Fixpoint parse_value (fuel : nat) (depth : N) (s : string) {struct fuel}
  : option (value * string) :=
  match fuel with
  | O => None
  | S fuel' => value_at (parse_members fuel') (parse_elems fuel') depth s
  end

with parse_members (fuel : nat) (depth : N) (s : string) {struct fuel}
  : option (list (string * value) * string) :=
  match fuel with
  | O => None
  | S fuel' => members_at (parse_value fuel') (parse_members fuel') depth s
  end

with parse_elems (fuel : nat) (depth : N) (s : string) {struct fuel}
  : option (list value * string) :=
  match fuel with
  | O => None
  | S fuel' => elems_at (parse_value fuel') (parse_elems fuel') depth s
  end.

(** [enough s r fuel]: [fuel] is at least twice the number of
    characters between [s] and its suffix [r], less one. *)
Definition enough (s r : string) (fuel : nat) : Prop :=
  2 * (String.length s - String.length r) <= fuel + 1.

(** The value of a whole text: one value, then white space only.  A
    chain of nested calls is at most twice as long as the text. *)
Definition scan (data : string) : option value :=
  match parse_value (2 * String.length data + 2) 0%N data with
  | Some (v, r) => match scanner.skip_space r with
                   | EmptyString => Some v
                   | _ => None
                   end
  | None => None
  end.

(** *** Storing a value into a Go variable

    [Unmarshal] stores what the text denotes into a variable of
    static type [T].  A value of the wrong kind is recorded as an
    [UnmarshalTypeError] and decoding goes on (only the first such
    error is kept); an error returned by a type's own [UnmarshalJSON]
    stops decoding at once.  Either way what was stored so far
    remains.  Error values carry the kind of the offending value and
    the name of the Go type, not offsets or field paths. *)

Record decodeState : Type :=
  { savedError : option error; aborted : option error }.

Definition saveError (e : error) (d : decodeState) : decodeState :=
  match savedError d with
  | None => {| savedError := Some e; aborted := aborted d |}
  | Some _ => d
  end.

Definition abort (e : error) (d : decodeState) : decodeState :=
  {| savedError := savedError d; aborted := Some e |}.

Definition decoder (T : Type) : Type :=
  value -> T -> decodeState -> T * decodeState.

Definition describe (v : value) : string :=
  match v with
  | JNull => "null"
  | JBool _ => "bool"
  | JNumber _ => "number"
  | JString _ => "string"
  | JArray _ => "array"
  | JObject _ => "object"
  end.

Definition mismatch (ty : string) (v : value) (d : decodeState) : decodeState :=
  saveError (UnmarshalTypeError (describe v) ty) d.

(** A [string] variable. *)
Definition decode_string : decoder string :=
  fun v s d =>
    match v with
    | JNull => (s, d)
    | JString x => (x, d)
    | _ => (s, mismatch "string" v d)
    end.

(** [json.Number]: the literal of a number, or a string that holds
    one. *)
Inductive Number : Type := mkNumber (literal : string).

Definition isValidNumber (s : string) : bool :=
  match scanner.lex_number s with
  | Some (_, EmptyString) => true
  | _ => false
  end.

Definition decode_Number : decoder Number :=
  fun v n d =>
    match v with
    | JNull => (n, d)
    | JNumber lit => (mkNumber lit, d)
    | JString x =>
      if isValidNumber x then (mkNumber x, d)
      else (n, abort (foreignError "json: invalid number literal") d)
    | _ => (n, mismatch "json.Number" v d)
    end.

(** An [int] variable (64 bits). *)
Definition decode_int : decoder Z :=
  fun v n d =>
    match v with
    | JNull => (n, d)
    | JNumber lit =>
      match strconv.ParseInt lit with
      | Some z => (z, d)
      | None => (n, saveError (UnmarshalTypeError ("number " ++ lit) "int") d)
      end
    | _ => (n, mismatch "int" v d)
    end.

(** A [float32] or [float64] variable. *)
Definition decode_float (prec emax : Z) (ty : string) : decoder spec_float :=
  fun v x d =>
    match v with
    | JNull => (x, d)
    | JNumber lit =>
      match strconv.ParseFloat prec emax lit with
      | Some y => (y, d)
      | None => (x, saveError (UnmarshalTypeError ("number " ++ lit) ty) d)
      end
    | _ => (x, mismatch ty v d)
    end.

Definition decode_float32 : decoder spec_float := decode_float 24 128 "float32".
Definition decode_float64 : decoder spec_float := decode_float 53 1024 "float64".

(** A [*big.Int] variable.  [null] makes the pointer nil; any other
    value is handed to [big.Int.UnmarshalJSON], through a fresh
    [big.Int] when the pointer was nil.  When that fails the number
    keeps the integer part that was read ([math/big] leaves the value
    unspecified). *)
Definition decode_bigInt : decoder (option Z) :=
  fun v p d =>
    match v with
    | JNull => (None, d)
    | JNumber lit =>
      match big.UnmarshalJSON lit with
      | Some z => (Some z, d)
      | None =>
        let ip := match strconv.split_literal lit with
                  | Some (neg, ds, _, _) =>
                    match strconv.digits_value 0 ds with
                    | Some n => if neg then Z.opp (Z.of_N n) else Z.of_N n
                    | None => 0%Z
                    end
                  | None => 0%Z
                  end in
        (Some ip,
         abort (foreignError "math/big: cannot unmarshal into a *big.Int") d)
      end
    | _ =>
      (Some 0%Z,
       abort (foreignError "math/big: cannot unmarshal into a *big.Int") d)
    end.

(** A slice variable.  Element [i] of the array is decoded into
    element [i] of the slice when the slice already has one, into a
    fresh zero value otherwise; the slice ends up as long as the
    array.  [null] makes the slice nil. *)
Fixpoint decode_elems {A : Type} (zero : A) (dec : decoder A)
         (elems : list value) (old : list A) (d : decodeState)
  : list A * decodeState :=
  match elems with
  | [] => ([], d)
  | v :: vs =>
    let (x, d1) := dec v (List.hd zero old) d in
    match aborted d1 with
    | Some _ => (x :: List.tl old, d1)
    | None =>
      let (xs, d2) := decode_elems zero dec vs (List.tl old) d1 in
      (x :: xs, d2)
    end
  end.

Definition decode_slice {A : Type} (ty : string) (zero : A) (dec : decoder A)
  : decoder (slice A) :=
  fun v s d =>
    match v with
    | JNull => (None, d)
    | JArray elems =>
      let (l, d') := decode_elems zero dec elems
                                  (match s with Some l => l | None => [] end) d in
      (Some l, d')
    | _ => (s, mismatch ty v d)
    end.

(** A struct variable.  A member is stored into the field whose name
    equals its key, or else into the first field whose name equals it
    up to case; other members are skipped. *)

(** Case folding of a key: ASCII letters to upper case; the two
    runes outside ASCII that fold to ASCII letters (U+017F to S, U+212A
    to K). *)
Fixpoint foldName (s : string) : string :=
  match s with
  | EmptyString => EmptyString
  | String "197"%char (String "191"%char t) => String "S"%char (foldName t)
  | String "226"%char (String "132"%char (String "170"%char t)) =>
    String "K"%char (foldName t)
  | String c t =>
    String (if utf8.between 97 122 c then ascii_of_N (N_of_ascii c - 32) else c)
           (foldName t)
  end.

Definition lookup_field {T : Type} (fields : list (string * decoder T))
           (key : string) : option (decoder T) :=
  match List.find (fun f => String.eqb (fst f) key) fields with
  | Some f => Some (snd f)
  | None =>
    match List.find (fun f => String.eqb (foldName (fst f)) (foldName key))
                    fields with
    | Some f => Some (snd f)
    | None => None
    end
  end.

Fixpoint decode_members {T : Type} (fields : list (string * decoder T))
         (ms : list (string * value)) (t : T) (d : decodeState)
  : T * decodeState :=
  match ms with
  | [] => (t, d)
  | (k, v) :: rest =>
    match lookup_field fields k with
    | None => decode_members fields rest t d
    | Some dec =>
      let (t', d') := dec v t d in
      match aborted d' with
      | Some _ => (t', d')
      | None => decode_members fields rest t' d'
      end
    end
  end.

Definition decode_struct {T : Type} (ty : string)
           (fields : list (string * decoder T)) : decoder T :=
  fun v t d =>
    match v with
    | JNull => (t, d)
    | JObject ms => decode_members fields ms t d
    | _ => (t, mismatch ty v d)
    end.

(** A field of a struct: its name on the wire, how to read and write
    it, and the decoder of its type. *)
Definition field {T A : Type} (name : string) (get : T -> A)
           (set : A -> T -> T) (dec : decoder A) : string * decoder T :=
  (name, fun v t d => let (a, d') := dec v (get t) d in (set a t, d')).

(** [json.Unmarshal(data, &v)]: [v] after the call and the error
    returned.  A syntax error is found before anything is stored. *)
Definition Unmarshal {T : Type} (dec : decoder T) (data : string) (v : T)
  : T * option error :=
  match scan data with
  | None => (v, Some SyntaxError)
  | Some j =>
    let (v', d) := dec j v {| savedError := None; aborted := None |} in
    (v', match aborted d with
         | Some e => Some e
         | None => savedError d
         end)
  end.

(** *** Encoding the request types: slices of strings and strings *)

Definition encode_strings (s : slice string) : value :=
  match s with
  | None => JNull
  | Some l => JArray (List.map JString l)
  end.

(** A field tagged [omitempty] is left out when it is empty: a slice
    of length zero (nil or not), the empty string. *)
Definition omitempty_strings (name : string) (s : slice string)
  : list (string * value) :=
  match len s with
  | O => []
  | _ => [(name, encode_strings s)]
  end.

Definition omitempty_string (name : string) (s : string)
  : list (string * value) :=
  match s with
  | EmptyString => []
  | _ => [(name, JString s)]
  end.

End json.

(** ** The types of [requests.go]

    One module per struct: the record, its zero value ([new]), the
    field updates, and the decoder its [json] tags determine.  A struct
    declared inline is named after the field that holds it. *)

Import json.

(** [InfoResp.Results] *)
Module InfoResp_Results.
Record t : Type := mk
  { MaxImageSize : Z;
    DefaultLanguage : string;
    MaxVideoSize : Z;
    MaxImageBytes : Z;
    DefaultModel : string;
    MaxVideoBytes : Z;
    MaxVideoDuration : Z;
    MaxVideoBatchSize : Z;
    MinVideoSize : Z;
    MinImageSize : Z;
    MaxBatchSize : Z;
    APIVersion : spec_float }.

Definition zero : t :=
  mk 0 "" 0 0 "" 0 0 0 0 0 0 (S754_zero false).

Definition set_MaxImageSize x r := let 'mk a b c d e f g h i j k l := r in mk x b c d e f g h i j k l.
Definition set_DefaultLanguage x r := let 'mk a b c d e f g h i j k l := r in mk a x c d e f g h i j k l.
Definition set_MaxVideoSize x r := let 'mk a b c d e f g h i j k l := r in mk a b x d e f g h i j k l.
Definition set_MaxImageBytes x r := let 'mk a b c d e f g h i j k l := r in mk a b c x e f g h i j k l.
Definition set_DefaultModel x r := let 'mk a b c d e f g h i j k l := r in mk a b c d x f g h i j k l.
Definition set_MaxVideoBytes x r := let 'mk a b c d e f g h i j k l := r in mk a b c d e x g h i j k l.
Definition set_MaxVideoDuration x r := let 'mk a b c d e f g h i j k l := r in mk a b c d e f x h i j k l.
Definition set_MaxVideoBatchSize x r := let 'mk a b c d e f g h i j k l := r in mk a b c d e f g x i j k l.
Definition set_MinVideoSize x r := let 'mk a b c d e f g h i j k l := r in mk a b c d e f g h x j k l.
Definition set_MinImageSize x r := let 'mk a b c d e f g h i j k l := r in mk a b c d e f g h i x k l.
Definition set_MaxBatchSize x r := let 'mk a b c d e f g h i j k l := r in mk a b c d e f g h i j x l.
Definition set_APIVersion x r := let 'mk a b c d e f g h i j k l := r in mk a b c d e f g h i j k x.

Definition decode : decoder t :=
  decode_struct "struct"
    [ field "max_image_size" MaxImageSize set_MaxImageSize decode_int;
      field "default_language" DefaultLanguage set_DefaultLanguage decode_string;
      field "max_video_size" MaxVideoSize set_MaxVideoSize decode_int;
      field "max_image_bytes" MaxImageBytes set_MaxImageBytes decode_int;
      field "default_model" DefaultModel set_DefaultModel decode_string;
      field "max_video_bytes" MaxVideoBytes set_MaxVideoBytes decode_int;
      field "max_video_duration" MaxVideoDuration set_MaxVideoDuration decode_int;
      field "max_video_batch_size" MaxVideoBatchSize set_MaxVideoBatchSize decode_int;
      field "min_video_size" MinVideoSize set_MinVideoSize decode_int;
      field "min_image_size" MinImageSize set_MinImageSize decode_int;
      field "max_batch_size" MaxBatchSize set_MaxBatchSize decode_int;
      field "api_version" APIVersion set_APIVersion decode_float32 ].
End InfoResp_Results.

(** [InfoResp]: the expected response from /info/.  [Results] has no
    tag, so its key is the field name. *)
Module InfoResp.
Record t : Type := mk
  { StatusCode : string;
    StatusMessage : string;
    Results : InfoResp_Results.t }.

Definition zero : t := mk "" "" InfoResp_Results.zero.

Definition set_StatusCode x r := let 'mk a b c := r in mk x b c.
Definition set_StatusMessage x r := let 'mk a b c := r in mk a x c.
Definition set_Results x r := let 'mk a b c := r in mk a b x.

Definition decode : decoder t :=
  decode_struct "clarifai.InfoResp"
    [ field "status_code" StatusCode set_StatusCode decode_string;
      field "status_msg" StatusMessage set_StatusMessage decode_string;
      field "Results" Results set_Results InfoResp_Results.decode ].
End InfoResp.

(** [TagRequest]: a request for /tag/. *)
Module TagRequest.
Record t : Type := mk
  { URLs : slice string;
    LocalIDs : slice string;
    Model : string }.

Definition zero : t := mk None None "".

Definition set_URLs x r := let 'mk a b c := r in mk x b c.
Definition set_LocalIDs x r := let 'mk a b c := r in mk a x c.
Definition set_Model x r := let 'mk a b c := r in mk a b x.

(** [url], [local_ids,omitempty], [model,omitempty] *)
Definition encode (r : t) : value :=
  JObject ([("url", encode_strings (URLs r))]
           ++ omitempty_strings "local_ids" (LocalIDs r)
           ++ omitempty_string "model" (Model r)).

Definition decode : decoder t :=
  decode_struct "clarifai.TagRequest"
    [ field "url" URLs set_URLs (decode_slice "[]string" "" decode_string);
      field "local_ids" LocalIDs set_LocalIDs
            (decode_slice "[]string" "" decode_string);
      field "model" Model set_Model decode_string ].
End TagRequest.

(** [TagResp.Meta.Tag] *)
Module TagResp_Meta_Tag.
Record t : Type := mk
  { Timestamp : Number;
    Model : string;
    Config : string }.

Definition zero : t := mk (mkNumber "") "" "".

Definition set_Timestamp x r := let 'mk a b c := r in mk x b c.
Definition set_Model x r := let 'mk a b c := r in mk a x c.
Definition set_Config x r := let 'mk a b c := r in mk a b x.

Definition decode : decoder t :=
  decode_struct "struct"
    [ field "timestamp" Timestamp set_Timestamp decode_Number;
      field "model" Model set_Model decode_string;
      field "config" Config set_Config decode_string ].
End TagResp_Meta_Tag.

(** [TagResp.Meta] *)
Module TagResp_Meta.
Record t : Type := mk { Tag : TagResp_Meta_Tag.t }.

Definition zero : t := mk TagResp_Meta_Tag.zero.

Definition set_Tag (x : TagResp_Meta_Tag.t) (r : t) : t := mk x.

Definition decode : decoder t :=
  decode_struct "struct" [ field "tag" Tag set_Tag TagResp_Meta_Tag.decode ].
End TagResp_Meta.

(** [TagResult.Result.Tag] *)
Module TagResult_Result_Tag.
Record t : Type := mk
  { Classes : slice string;
    CatIDs : slice string;
    Probs : slice spec_float }.

Definition zero : t := mk None None None.

Definition set_Classes x r := let 'mk a b c := r in mk x b c.
Definition set_CatIDs x r := let 'mk a b c := r in mk a x c.
Definition set_Probs x r := let 'mk a b c := r in mk a b x.

Definition decode : decoder t :=
  decode_struct "struct"
    [ field "classes" Classes set_Classes
            (decode_slice "[]string" "" decode_string);
      field "catids" CatIDs set_CatIDs
            (decode_slice "[]string" "" decode_string);
      field "probs" Probs set_Probs
            (decode_slice "[]float32" (S754_zero false) decode_float32) ].
End TagResult_Result_Tag.

(** [TagResult.Result] *)
Module TagResult_Result.
Record t : Type := mk { Tag : TagResult_Result_Tag.t }.

Definition zero : t := mk TagResult_Result_Tag.zero.

Definition set_Tag (x : TagResult_Result_Tag.t) (r : t) : t := mk x.

Definition decode : decoder t :=
  decode_struct "struct"
    [ field "tag" Tag set_Tag TagResult_Result_Tag.decode ].
End TagResult_Result.

(** [TagResult]: the expected data for a single tag result. *)
Module TagResult.
Record t : Type := mk
  { DocID : option Z;                 (* *big.Int *)
    URL : string;
    StatusCode : string;
    StatusMessage : string;
    LocalID : string;
    Result : TagResult_Result.t;
    DocIDString : string }.

Definition zero : t := mk None "" "" "" "" TagResult_Result.zero "".

Definition set_DocID x r := let 'mk a b c d e f g := r in mk x b c d e f g.
Definition set_URL x r := let 'mk a b c d e f g := r in mk a x c d e f g.
Definition set_StatusCode x r := let 'mk a b c d e f g := r in mk a b x d e f g.
Definition set_StatusMessage x r := let 'mk a b c d e f g := r in mk a b c x e f g.
Definition set_LocalID x r := let 'mk a b c d e f g := r in mk a b c d x f g.
Definition set_Result x r := let 'mk a b c d e f g := r in mk a b c d e x g.
Definition set_DocIDString x r := let 'mk a b c d e f g := r in mk a b c d e f x.

Definition decode : decoder t :=
  decode_struct "clarifai.TagResult"
    [ field "docid" DocID set_DocID decode_bigInt;
      field "url" URL set_URL decode_string;
      field "status_code" StatusCode set_StatusCode decode_string;
      field "status_msg" StatusMessage set_StatusMessage decode_string;
      field "local_id" LocalID set_LocalID decode_string;
      field "result" Result set_Result TagResult_Result.decode;
      field "docid_str" DocIDString set_DocIDString decode_string ].
End TagResult.

(** [TagResp]: the expected response from /tag/. *)
Module TagResp.
Record t : Type := mk
  { StatusCode : string;
    StatusMessage : string;
    Meta : TagResp_Meta.t;
    Results : slice TagResult.t }.

Definition zero : t := mk "" "" TagResp_Meta.zero None.

Definition set_StatusCode x r := let 'mk a b c d := r in mk x b c d.
Definition set_StatusMessage x r := let 'mk a b c d := r in mk a x c d.
Definition set_Meta x r := let 'mk a b c d := r in mk a b x d.
Definition set_Results x r := let 'mk a b c d := r in mk a b c x.

Definition decode : decoder t :=
  decode_struct "clarifai.TagResp"
    [ field "status_code" StatusCode set_StatusCode decode_string;
      field "status_msg" StatusMessage set_StatusMessage decode_string;
      field "meta" Meta set_Meta TagResp_Meta.decode;
      field "results" Results set_Results
            (decode_slice "[]clarifai.TagResult" TagResult.zero TagResult.decode) ].
End TagResp.

(** [ColorRequest]: the request to /color/. *)
Module ColorRequest.
Record t : Type := mk
  { URLs : slice string;
    LocalIDs : slice string }.

Definition zero : t := mk None None.

(** [url], [local_ids,omitempty] *)
Definition encode (r : t) : value :=
  JObject ([("url", encode_strings (URLs r))]
           ++ omitempty_strings "local_ids" (LocalIDs r)).
End ColorRequest.

(** [Color.W3C] *)
Module Color_W3C.
Record t : Type := mk { Hex : string; Name : string }.

Definition zero : t := mk "" "".

Definition set_Hex x r := let 'mk a b := r in mk x b.
Definition set_Name x r := let 'mk a b := r in mk a x.

Definition decode : decoder t :=
  decode_struct "struct"
    [ field "hex" Hex set_Hex decode_string;
      field "name" Name set_Name decode_string ].
End Color_W3C.

(** [Color]: a single color in a given image. *)
Module Color.
Record t : Type := mk
  { W3C : Color_W3C.t;
    Hex : string;
    Density : spec_float }.

Definition zero : t := mk Color_W3C.zero "" (S754_zero false).

Definition set_W3C x r := let 'mk a b c := r in mk x b c.
Definition set_Hex x r := let 'mk a b c := r in mk a x c.
Definition set_Density x r := let 'mk a b c := r in mk a b x.

Definition decode : decoder t :=
  decode_struct "clarifai.Color"
    [ field "w3c" W3C set_W3C Color_W3C.decode;
      field "hex" Hex set_Hex decode_string;
      field "density" Density set_Density decode_float64 ].
End Color.

(** An element of [ColorResp.Results] *)
Module ColorResp_Result.
Record t : Type := mk
  { DocID : option Z;                 (* *big.Int *)
    URL : string;
    DocIDString : string;
    Colors : slice Color.t }.

Definition zero : t := mk None "" "" None.

Definition set_DocID x r := let 'mk a b c d := r in mk x b c d.
Definition set_URL x r := let 'mk a b c d := r in mk a x c d.
Definition set_DocIDString x r := let 'mk a b c d := r in mk a b x d.
Definition set_Colors x r := let 'mk a b c d := r in mk a b c x.

Definition decode : decoder t :=
  decode_struct "struct"
    [ field "docid" DocID set_DocID decode_bigInt;
      field "url" URL set_URL decode_string;
      field "docid_str" DocIDString set_DocIDString decode_string;
      field "colors" Colors set_Colors
            (decode_slice "[]clarifai.Color" Color.zero Color.decode) ].
End ColorResp_Result.

(** [ColorResp]: the expected response from the /color/ endpoint. *)
Module ColorResp.
Record t : Type := mk
  { StatusCode : string;
    StatusMessage : string;
    Results : slice ColorResp_Result.t }.

Definition zero : t := mk "" "" None.

Definition set_StatusCode x r := let 'mk a b c := r in mk x b c.
Definition set_StatusMessage x r := let 'mk a b c := r in mk a x c.
Definition set_Results x r := let 'mk a b c := r in mk a b x.

Definition decode : decoder t :=
  decode_struct "clarifai.ColorResp"
    [ field "status_code" StatusCode set_StatusCode decode_string;
      field "status_msg" StatusMessage set_StatusMessage decode_string;
      field "results" Results set_Results
            (decode_slice "[]struct" ColorResp_Result.zero
                          ColorResp_Result.decode) ].
End ColorResp.

(** [FeedbackForm]: used to send feedback back to Clarifai. *)
Module FeedbackForm.
Record t : Type := mk
  { DocIDs : slice string;
    URLs : slice string;
    AddTags : slice string;
    RemoveTags : slice string;
    DissimilarDocIDs : slice string;
    SimilarDocIDs : slice string;
    SearchClick : slice string }.

Definition zero : t := mk None None None None None None None.

(** Every field is tagged [omitempty]. *)
Definition encode (r : t) : value :=
  JObject (omitempty_strings "docids" (DocIDs r)
           ++ omitempty_strings "url" (URLs r)
           ++ omitempty_strings "add_tags" (AddTags r)
           ++ omitempty_strings "remove_tags" (RemoveTags r)
           ++ omitempty_strings "dissimilar_docids" (DissimilarDocIDs r)
           ++ omitempty_strings "similar_docids" (SimilarDocIDs r)
           ++ omitempty_strings "search_click" (SearchClick r)).
End FeedbackForm.

(** [FeedbackResp]: the expected response from /feedback/. *)
Module FeedbackResp.
Record t : Type := mk
  { StatusCode : string;
    StatusMessage : string }.

Definition zero : t := mk "" "".

Definition set_StatusCode x r := let 'mk a b := r in mk x b.
Definition set_StatusMessage x r := let 'mk a b := r in mk a x.

Definition decode : decoder t :=
  decode_struct "clarifai.FeedbackResp"
    [ field "status_code" StatusCode set_StatusCode decode_string;
      field "status_msg" StatusMessage set_StatusMessage decode_string ].
End FeedbackResp.

(** ** Request bodies

    [commonHTTPRequest] takes the body as an [interface{}]: [nil] for
    [Info], otherwise one of the three request values. *)
Inductive Body : Type :=
| BodyNil
| BodyTag (req : TagRequest.t)
| BodyColor (req : ColorRequest.t)
| BodyFeedback (form : FeedbackForm.t).

(** The JSON value of a body, and [json.Marshal] of it. *)
Definition toJSON (b : Body) : value :=
  match b with
  | BodyNil => JNull
  | BodyTag req => TagRequest.encode req
  | BodyColor req => ColorRequest.encode req
  | BodyFeedback form => FeedbackForm.encode form
  end.

Definition Marshal (b : Body) : string := render (toJSON b).

(** ** The client

    A call of [commonHTTPRequest] is its four arguments.  The transport
    answers with bytes and an error, as a function of the call and of
    the state [W] of the outside world, which it may change.  A
    computation runs on that state and on the log of the calls made so
    far. *)

Record Call : Type := mkCall
  { jsonBody : Body; endpoint : string; verb : string; retry : bool }.

Record Net (W : Type) : Type := mkNet
  { world : W; calls : list Call }.

Arguments mkNet {W} _ _.
Arguments world {W} _.
Arguments calls {W} _.

Definition IO (W A : Type) : Type := Net W -> A * Net W.

Definition ret {W A : Type} (a : A) : IO W A := fun n => (a, n).

Definition bind {W A B : Type} (m : IO W A) (k : A -> IO W B) : IO W B :=
  fun n => let (a, n') := m n in k a n'.

Notation "x <- m ;; k" := (bind m (fun x => k))
  (at level 61, m at next level, right associativity).
Notation "' p <- m ;; k" := (bind m (fun x => let p := x in k))
  (at level 61, p pattern, m at next level, right associativity).

Module Client.

Record t (W : Type) : Type := mk
  { transport : Call -> W -> (string * option error) * W }.

Arguments mk {W} _.
Arguments transport {W} _ _ _.

Section Methods.
Context {W : Type} (client : t W).

Definition commonHTTPRequest (jsonBody : Body) (endpoint verb : string)
           (retry : bool) : IO W (string * option error) :=
  fun n =>
    let c := mkCall jsonBody endpoint verb retry in
    let (r, w) := transport client c (world n) in
    (r, mkNet w (calls n ++ [c])).

(** Info will return the current status info for the given client *)
Definition Info : IO W (option InfoResp.t * option error) :=
  '(res, err) <- commonHTTPRequest BodyNil "info" "GET" false ;;
  match err with
  | Some e => ret (None, Some e)
  | None =>
    let info := InfoResp.zero in
    let (info, err) := Unmarshal InfoResp.decode res info in
    ret (Some info, err)
  end.

(** Tag allows the client to request tag data on a single, or
    multiple photos *)
Definition Tag (req : TagRequest.t) : IO W (option TagResp.t * option error) :=
  if Nat.ltb (len (TagRequest.URLs req)) 1 then
    ret (None, Some (errors.New "Requires at least one url"))
  else
    '(res, err) <- commonHTTPRequest (BodyTag req) "tag" "POST" false ;;
    match err with
    | Some e => ret (None, Some e)
    | None =>
      let tagres := TagResp.zero in
      let (tagres, err) := Unmarshal TagResp.decode res tagres in
      ret (Some tagres, err)
    end.

(** Color makes a request for a series of images to be color tagged *)
Definition Color (req : ColorRequest.t)
  : IO W (option ColorResp.t * option error) :=
  if Nat.ltb (len (ColorRequest.URLs req)) 1 then
    ret (None, Some (errors.New "Requires at least one url"))
  else
    '(res, err) <- commonHTTPRequest (BodyColor req) "color" "POST" false ;;
    match err with
    | Some e => ret (None, Some e)
    | None =>
      let colorResponse := ColorResp.zero in
      let (colorResponse, err) := Unmarshal ColorResp.decode res colorResponse in
      ret (Some colorResponse, err)
    end.

Definition is_nil {A : Type} (s : slice A) : bool :=
  match s with None => true | Some _ => false end.

(** Feedback allows the user to provide contextual feedback to
    Clarifai in order to improve their results.  The error of the
    transport is overwritten by that of [Unmarshal]. *)
Definition Feedback (form : FeedbackForm.t)
  : IO W (option FeedbackResp.t * option error) :=
  if (is_nil (FeedbackForm.DocIDs form) && is_nil (FeedbackForm.URLs form))%bool
  then ret (None, Some (errors.New "Requires at least one docid or url"))
  else
  if (negb (is_nil (FeedbackForm.DocIDs form))
      && negb (is_nil (FeedbackForm.URLs form)))%bool
  then ret (None, Some (errors.New
    "Request must provide exactly one of the following fields: {'DocIDs', 'URLs'}"))
  else
    '(res, _) <- commonHTTPRequest (BodyFeedback form) "feedback" "POST" false ;;
    let feedbackres := FeedbackResp.zero in
    let (feedbackres, err) := Unmarshal FeedbackResp.decode res feedbackres in
    ret (Some feedbackres, err).

End Methods.

End Client.

(** ** Sample clients and inputs *)

(** A transport that answers every call with the bytes [text] and no
    error, and one that fails every call with [e] and the bytes
    [text]. *)
Definition stub (text : string) : Client.t unit :=
  Client.mk (fun _ w => ((text, None), w)).

Definition failing (text : string) (e : error) : Client.t unit :=
  Client.mk (fun _ w => ((text, Some e), w)).

Definition net0 : Net unit := mkNet tt [].

Definition tagCall (req : TagRequest.t) : Call :=
  mkCall (BodyTag req) "tag" "POST" false.

Definition colorCall (req : ColorRequest.t) : Call :=
  mkCall (BodyColor req) "color" "POST" false.

Definition feedbackCall (form : FeedbackForm.t) : Call :=
  mkCall (BodyFeedback form) "feedback" "POST" false.

Definition infoCall : Call := mkCall BodyNil "info" "GET" false.

(** An answer of the service to a request for the tags of one image. *)
Definition tagText : string :=
  dq "{'status_code':'OK','status_msg':'','results':[{'docid':123,'url':'http://x/img.jpg','status_code':'OK','status_msg':'','local_id':'','result':{'tag':{'classes':['cat'],'catids':['c1'],'probs':[0.9]}}}]}".

(** Two answers of the service that report a failure in the envelope,
    the second with a status code of the wrong JSON kind. *)
Definition failureText : string :=
  dq "{'status_code':'ALL_ERROR','status_msg':'All images in request have failed.'}".

Definition wrongKindText : string := dq "{'status_code':404,'status_msg':'Not Found'}".

(** The members of a JSON object and their keys. *)
Definition members (v : value) : list (string * value) :=
  match v with
  | JObject ms => ms
  | _ => []
  end.

Definition keys (v : value) : list string := List.map fst (members v).

(** [null], the empty array and the empty string. *)
Definition is_empty_value (v : value) : bool :=
  match v with
  | JNull | JArray [] | JString EmptyString => true
  | _ => false
  end.

(** What may follow a number literal: the end of the text, or a
    character that does not continue it. *)
Definition ends_number (rest : string) : bool :=
  match rest with
  | EmptyString => true
  | String c _ =>
    negb (scanner.is_digit c || Ascii.eqb c "."%char
          || Ascii.eqb c "e"%char || Ascii.eqb c "E"%char)
  end.

(** A numeral that is not empty and does not start with a zero. *)
Definition leading_nonzero (d : Decimal.uint) : Prop :=
  match d with
  | Decimal.Nil | Decimal.D0 _ => False
  | _ => True
  end.

(** A response with one result whose document identifier is written
    [docid], as a number and, in [docid_str], as a string. *)
Definition idResponse (docid : string) : string :=
  dq "{'status_code':'OK','status_msg':'','results':[{'docid':" ++ docid
  ++ dq ",'url':'http://x/img.jpg','docid_str':'" ++ docid ++ dq "'}]}".

Definition idResponseValue (docid : string) : value :=
  JObject
    [("status_code", JString "OK");
     ("status_msg", JString "");
     ("results",
      JArray [JObject [("docid", JNumber docid);
                       ("url", JString "http://x/img.jpg");
                       ("docid_str", JString docid)]])].

(** What that response decodes to, for [Tag] and for [Color], when the
    identifier is [n] in decimal. *)
Definition idTagResp (n : Z) : TagResp.t :=
  TagResp.mk "OK" "" TagResp_Meta.zero
    (Some [TagResult.mk (Some n) "http://x/img.jpg" "" "" ""
                        TagResult_Result.zero (big.String_ n)]).

Definition idColorResp (n : Z) : ColorResp.t :=
  ColorResp.mk "OK" ""
    (Some [ColorResp_Result.mk (Some n) "http://x/img.jpg" (big.String_ n) None]).

(** ** Values used to state properties of the decoders and of the wire form *)

(** The decoder state [Unmarshal] starts from. *)
Definition fresh : decodeState := {| savedError := None; aborted := None |}.


(** [utf8.ValidString]: the string consists of well-formed UTF-8
    sequences only.  [skip] counts the bytes that remain of a rune
    already examined. *)
Fixpoint valid_from (skip : nat) (s : string) : bool :=
  match s with
  | EmptyString => match skip with O => true | S _ => false end
  | String c t =>
    match skip with
    | S k => valid_from k t
    | O => if N.ltb (N_of_ascii c) 0x80 then valid_from 0 t
           else let (_, size) := utf8.DecodeRune s in
                if Nat.eqb size 1 then false else valid_from (size - 1) t
    end
  end.

Definition ValidString (s : string) : bool := valid_from 0 s.

Definition valid_slice (s : slice string) : bool :=
  match s with
  | None => true
  | Some l => forallb ValidString l
  end.

(** Every string of a request body is valid UTF-8. *)
Definition valid_body (b : Body) : bool :=
  match b with
  | BodyNil => true
  | BodyTag r =>
    valid_slice (TagRequest.URLs r) && valid_slice (TagRequest.LocalIDs r)
    && ValidString (TagRequest.Model r)
  | BodyColor r =>
    valid_slice (ColorRequest.URLs r) && valid_slice (ColorRequest.LocalIDs r)
  | BodyFeedback r =>
    valid_slice (FeedbackForm.DocIDs r) && valid_slice (FeedbackForm.URLs r)
    && valid_slice (FeedbackForm.AddTags r)
    && valid_slice (FeedbackForm.RemoveTags r)
    && valid_slice (FeedbackForm.DissimilarDocIDs r)
    && valid_slice (FeedbackForm.SimilarDocIDs r)
    && valid_slice (FeedbackForm.SearchClick r)
  end%bool.

(** The text of the elements of an array and of the members of an
    object, as [render] writes them between the brackets. *)
Fixpoint render_elems (l : list value) : string :=
  match l with
  | [] => ""
  | x :: r => render x ++ match r with [] => "" | _ => "," ++ render_elems r end
  end.

Fixpoint render_members (l : list (string * value)) : string :=
  match l with
  | [] => ""
  | (k, x) :: r => quote k ++ ":" ++ render x ++
                   match r with [] => "" | _ => "," ++ render_members r end
  end.

(** The values the request types are encoded into: [null], a string,
    an array of strings; and a member whose value is one of these. *)
Definition is_valid_string (v : value) : bool :=
  match v with
  | JString s => ValidString s
  | _ => false
  end.

Definition flat_value (v : value) : bool :=
  match v with
  | JNull => true
  | JString s => ValidString s
  | JArray l => forallb is_valid_string l
  | _ => false
  end.

Definition flat_member (m : string * value) : bool :=
  (ValidString (fst m) && flat_value (snd m))%bool.

(** An answer of the service to /info/ whose [max_image_size] is
    written [size], its JSON value, and the envelope it decodes to when
    [max_image_size] is stored as [size]. *)
Definition infoResponse (size : string) : string :=
  dq "{'status_code':'OK','status_msg':'','results':{'max_image_size':" ++ size
  ++ dq ",'default_language':'en','max_batch_size':128}}".

Definition infoResponseValue (size : string) : value :=
  JObject
    [("status_code", JString "OK");
     ("status_msg", JString "");
     ("results",
      JObject [("max_image_size", JNumber size);
               ("default_language", JString "en");
               ("max_batch_size", JNumber "128")])].

Definition infoResult (size : Z) : InfoResp.t :=
  InfoResp.mk "OK" ""
    (InfoResp_Results.mk size "en" 0 0 "" 0 0 0 0 0 128 (S754_zero false)).

(** The least an answer of the service holds: the two status strings,
    written the way [json.Marshal] writes strings. *)
Definition statusResponse (code msg : string) : string :=
  render (JObject [("status_code", JString code); ("status_msg", JString msg)]).

(** The JSON values a struct is decoded from or cleared by. *)
Definition is_object_or_null (v : value) : bool :=
  match v with
  | JObject _ | JNull => true
  | _ => false
  end.

(** ** The four methods, case by case *)

Section Runs.
Context {W : Type} (client : Client.t W) (n : Net W).

Lemma Info_run :
  Client.Info client n =
  let '((res, err), w) := Client.transport client infoCall (world n) in
  let n' := mkNet w (calls n ++ [infoCall]) in
  match err with
  | Some e => ((None, Some e), n')
  | None => let (v, e) := Unmarshal InfoResp.decode res InfoResp.zero in
            ((Some v, e), n')
  end.
Proof.
  unfold Client.Info, bind, Client.commonHTTPRequest, infoCall.
  destruct (Client.transport client _ (world n)) as [[res [e|]] w]; cbn.
  - reflexivity.
  - destruct (Unmarshal InfoResp.decode res InfoResp.zero); reflexivity.
Qed.

Lemma Tag_run (req : TagRequest.t) :
  Client.Tag client req n =
  match len (TagRequest.URLs req) with
  | O => ((None, Some (errors.New "Requires at least one url")), n)
  | S _ =>
    let '((res, err), w) := Client.transport client (tagCall req) (world n) in
    let n' := mkNet w (calls n ++ [tagCall req]) in
    match err with
    | Some e => ((None, Some e), n')
    | None => let (v, e) := Unmarshal TagResp.decode res TagResp.zero in
              ((Some v, e), n')
    end
  end.
Proof.
  unfold Client.Tag, bind, Client.commonHTTPRequest, tagCall.
  destruct (len (TagRequest.URLs req)); cbn; [reflexivity|].
  destruct (Client.transport client _ (world n)) as [[res [e|]] w]; cbn.
  - reflexivity.
  - destruct (Unmarshal TagResp.decode res TagResp.zero); reflexivity.
Qed.

Lemma Color_run (req : ColorRequest.t) :
  Client.Color client req n =
  match len (ColorRequest.URLs req) with
  | O => ((None, Some (errors.New "Requires at least one url")), n)
  | S _ =>
    let '((res, err), w) := Client.transport client (colorCall req) (world n) in
    let n' := mkNet w (calls n ++ [colorCall req]) in
    match err with
    | Some e => ((None, Some e), n')
    | None => let (v, e) := Unmarshal ColorResp.decode res ColorResp.zero in
              ((Some v, e), n')
    end
  end.
Proof.
  unfold Client.Color, bind, Client.commonHTTPRequest, colorCall.
  destruct (len (ColorRequest.URLs req)); cbn; [reflexivity|].
  destruct (Client.transport client _ (world n)) as [[res [e|]] w]; cbn.
  - reflexivity.
  - destruct (Unmarshal ColorResp.decode res ColorResp.zero); reflexivity.
Qed.

Lemma Feedback_run (form : FeedbackForm.t) :
  Client.Feedback client form n =
  match FeedbackForm.DocIDs form, FeedbackForm.URLs form with
  | None, None =>
    ((None, Some (errors.New "Requires at least one docid or url")), n)
  | Some _, Some _ =>
    ((None, Some (errors.New
       "Request must provide exactly one of the following fields: {'DocIDs', 'URLs'}")), n)
  | _, _ =>
    let '((res, _), w) := Client.transport client (feedbackCall form) (world n) in
    let (v, e) := Unmarshal FeedbackResp.decode res FeedbackResp.zero in
    ((Some v, e), mkNet w (calls n ++ [feedbackCall form]))
  end.
Proof.
  unfold Client.Feedback, bind, Client.commonHTTPRequest, feedbackCall.
  destruct (FeedbackForm.DocIDs form), (FeedbackForm.URLs form); cbn;
    try reflexivity;
    destruct (Client.transport client _ (world n)) as [[res err] w]; cbn;
    destruct (Unmarshal FeedbackResp.decode res FeedbackResp.zero); reflexivity.
Qed.

End Runs.

(** Two runs: a tag request answered with [tagText], and the empty
    feedback form. *)
Example Tag_one_image :
  let req := TagRequest.mk (Some ["http://x/img.jpg"]) None "" in
  exists v r,
    Client.Tag (stub tagText) req net0 = ((Some v, None), mkNet tt [tagCall req])
    /\ TagResp.Results v = Some [r]
    /\ TagResult.DocID r = Some 123%Z
    /\ TagResult_Result_Tag.Classes (TagResult_Result.Tag (TagResult.Result r))
       = Some ["cat"]
    /\ TagResult_Result_Tag.Probs (TagResult_Result.Tag (TagResult.Result r))
       = Some [S754_finite false 15099494 (-24)].
Proof.
  do 2 eexists; split; [vm_compute; reflexivity|].
  repeat split.
Qed.

Example Feedback_empty_form :
  Client.Feedback (stub tagText) FeedbackForm.zero net0
  = ((None, Some (errors.New "Requires at least one docid or url")), net0).
Proof. reflexivity. Qed.

(** ** Validation *)

(** C3: when the URL sequence of a [TagRequest] or of a [ColorRequest]
    is empty (nil or of length zero), [Tag], respectively [Color],
    returns the error "Requires at least one url" with a nil response,
    and the state of the transport, with its log of calls, is the one
    the method started from: no transport call is made. *)
Theorem empty_url_sequence_rejected :
  forall (W : Type) (client : Client.t W) (n : Net W),
    (forall req : TagRequest.t,
        len (TagRequest.URLs req) = 0 ->
        Client.Tag client req n =
        ((None, Some (errors.New "Requires at least one url")), n))
    /\
    (forall req : ColorRequest.t,
        len (ColorRequest.URLs req) = 0 ->
        Client.Color client req n =
        ((None, Some (errors.New "Requires at least one url")), n)).
Proof.
  intros W client n; split; intros req Hlen.
  - rewrite Tag_run, Hlen; reflexivity.
  - rewrite Color_run, Hlen; reflexivity.
Qed.

Lemma empty_url_sequence_rejected_witness :
  Client.Tag (stub "{}") (TagRequest.mk (Some []) (Some ["7"]) "general-v1.3") net0
  = ((None, Some (errors.New "Requires at least one url")), net0)
  /\
  Client.Color (stub "{}") (ColorRequest.mk None None) net0
  = ((None, Some (errors.New "Requires at least one url")), net0).
Proof.
  split.
  - apply (proj1 (empty_url_sequence_rejected unit (stub "{}") net0)).
    reflexivity.
  - apply (proj2 (empty_url_sequence_rejected unit (stub "{}") net0)).
    reflexivity.
Defined.

(** C10: a [TagRequest] or [ColorRequest] with at least one URL passes
    the check whatever its [LocalIDs] and [Model] are: the method makes
    exactly one transport call, with the request as it was given, the
    endpoint name and POST, and leaves the outside world as the
    transport left it. *)
Theorem nonempty_url_sequence_reaches_transport :
  forall (W : Type) (client : Client.t W) (n : Net W),
    (forall req : TagRequest.t,
        1 <= len (TagRequest.URLs req) ->
        snd (Client.Tag client req n) =
        mkNet (snd (Client.transport client (tagCall req) (world n)))
              (calls n ++ [tagCall req]))
    /\
    (forall req : ColorRequest.t,
        1 <= len (ColorRequest.URLs req) ->
        snd (Client.Color client req n) =
        mkNet (snd (Client.transport client (colorCall req) (world n)))
              (calls n ++ [colorCall req])).
Proof.
  intros W client n; split; intros req Hlen.
  - rewrite Tag_run.
    destruct (len (TagRequest.URLs req)) as [|k]; [lia|].
    destruct (Client.transport client (tagCall req) (world n)) as [[res [e|]] w];
      cbn; [reflexivity|].
    destruct (Unmarshal TagResp.decode res TagResp.zero); reflexivity.
  - rewrite Color_run.
    destruct (len (ColorRequest.URLs req)) as [|k]; [lia|].
    destruct (Client.transport client (colorCall req) (world n)) as [[res [e|]] w];
      cbn; [reflexivity|].
    destruct (Unmarshal ColorResp.decode res ColorResp.zero); reflexivity.
Qed.

(** One URL, three local identifiers and a model name no service
    knows. *)
Lemma nonempty_url_sequence_reaches_transport_witness :
  let treq := TagRequest.mk (Some ["http://x/img.jpg"]) (Some ["1"; "2"; "3"])
                            "no-such-model" in
  let creq := ColorRequest.mk (Some ["http://x/img.jpg"]) (Some []) in
  snd (Client.Tag (stub "{}") treq net0) = mkNet tt [tagCall treq]
  /\ snd (Client.Color (stub "{}") creq net0) = mkNet tt [colorCall creq].
Proof.
  split.
  - apply (proj1 (nonempty_url_sequence_reaches_transport unit (stub "{}") net0)).
    cbn; lia.
  - apply (proj2 (nonempty_url_sequence_reaches_transport unit (stub "{}") net0)).
    cbn; lia.
Defined.







(** ** Transport failures and decoding *)

(** [Info], [Tag] and [Color] hand a transport error back unchanged,
    with a nil response, and decode nothing. *)
Lemma transport_failure_propagated :
  forall (W : Type) (client : Client.t W) (n : Net W) (res : string) (e : error) (w : W),
    (Client.transport client infoCall (world n) = ((res, Some e), w) ->
     Client.Info client n = ((None, Some e), mkNet w (calls n ++ [infoCall])))
    /\
    (forall req, 1 <= len (TagRequest.URLs req) ->
       Client.transport client (tagCall req) (world n) = ((res, Some e), w) ->
       Client.Tag client req n = ((None, Some e), mkNet w (calls n ++ [tagCall req])))
    /\
    (forall req, 1 <= len (ColorRequest.URLs req) ->
       Client.transport client (colorCall req) (world n) = ((res, Some e), w) ->
       Client.Color client req n =
       ((None, Some e), mkNet w (calls n ++ [colorCall req]))).
Proof.
  intros W client n res e w; repeat split.
  - intros H; rewrite Info_run, H; reflexivity.
  - intros req Hlen H; rewrite Tag_run, H.
    destruct (len (TagRequest.URLs req)); [lia | reflexivity].
  - intros req Hlen H; rewrite Color_run, H.
    destruct (len (ColorRequest.URLs req)); [lia | reflexivity].
Qed.

(** What [Feedback] returns does not depend on the error of the
    transport. *)
Lemma Feedback_ignores_transport_error :
  forall (W : Type) (c1 c2 : Client.t W) (n : Net W) (form : FeedbackForm.t),
    (forall call w, fst (fst (Client.transport c1 call w)) =
                    fst (fst (Client.transport c2 call w))) ->
    fst (Client.Feedback c1 form n) = fst (Client.Feedback c2 form n).
Proof.
  intros W c1 c2 n form H; rewrite !Feedback_run.
  destruct (FeedbackForm.DocIDs form), (FeedbackForm.URLs form); try reflexivity;
    specialize (H (feedbackCall form) (world n));
    destruct (Client.transport c1 _ _) as [[r1 e1] w1];
    destruct (Client.transport c2 _ _) as [[r2 e2] w2]; cbn in *; subst r2;
    destruct (Unmarshal FeedbackResp.decode r1 FeedbackResp.zero); reflexivity.
Qed.

(** C1 holds for [Info], [Tag] and [Color]
    ([transport_failure_propagated]) and fails for [Feedback], which
    never looks at the error of the transport: on a failed call with no
    bytes it decodes the empty text and returns a fresh envelope with
    the syntax error of [json.Unmarshal]; on a failed call that comes
    with a JSON body it returns the decoded envelope and no error at
    all. *)
Theorem Feedback_drops_transport_failure :
  let form := FeedbackForm.mk None (Some ["http://x/img.jpg"])
                              None None None None None in
  let e := foreignError "Post https://api.clarifai.com/v1/feedback/: EOF" in
  Client.Feedback (failing "" e) form net0 =
  ((Some FeedbackResp.zero, Some SyntaxError), mkNet tt [feedbackCall form])
  /\
  Client.Feedback (failing (dq "{'status_code':'TOKEN_INVALID','status_msg':'x'}") e)
                  form net0 =
  ((Some (FeedbackResp.mk "TOKEN_INVALID" "x"), None),
   mkNet tt [feedbackCall form]).
Proof. split; reflexivity. Qed.

(** C7: when the transport succeeds and the bytes decode without error
    into the envelope, each method returns that envelope with a nil
    error, whatever the envelope holds, its status code included. *)
Theorem decoded_envelope_returned_whatever_its_status :
  forall (W : Type) (client : Client.t W) (n : Net W) (res : string) (w : W),
    (forall v,
        Client.transport client infoCall (world n) = ((res, None), w) ->
        Unmarshal InfoResp.decode res InfoResp.zero = (v, None) ->
        Client.Info client n = ((Some v, None), mkNet w (calls n ++ [infoCall])))
    /\
    (forall req v,
        1 <= len (TagRequest.URLs req) ->
        Client.transport client (tagCall req) (world n) = ((res, None), w) ->
        Unmarshal TagResp.decode res TagResp.zero = (v, None) ->
        Client.Tag client req n =
        ((Some v, None), mkNet w (calls n ++ [tagCall req])))
    /\
    (forall req v,
        1 <= len (ColorRequest.URLs req) ->
        Client.transport client (colorCall req) (world n) = ((res, None), w) ->
        Unmarshal ColorResp.decode res ColorResp.zero = (v, None) ->
        Client.Color client req n =
        ((Some v, None), mkNet w (calls n ++ [colorCall req])))
    /\
    (forall form v,
        (FeedbackForm.DocIDs form = None <-> FeedbackForm.URLs form <> None) ->
        Client.transport client (feedbackCall form) (world n) = ((res, None), w) ->
        Unmarshal FeedbackResp.decode res FeedbackResp.zero = (v, None) ->
        Client.Feedback client form n =
        ((Some v, None), mkNet w (calls n ++ [feedbackCall form]))).
Proof.
  intros W client n res w; repeat split.
  - intros v Ht Hu; rewrite Info_run, Ht, Hu; reflexivity.
  - intros req v Hlen Ht Hu; rewrite Tag_run, Ht, Hu.
    destruct (len (TagRequest.URLs req)); [lia | reflexivity].
  - intros req v Hlen Ht Hu; rewrite Color_run, Ht, Hu.
    destruct (len (ColorRequest.URLs req)); [lia | reflexivity].
  - intros form v [H1 H2] Ht Hu; rewrite Feedback_run, Ht, Hu.
    destruct (FeedbackForm.DocIDs form), (FeedbackForm.URLs form);
      try reflexivity.
    + specialize (H2 ltac:(discriminate)); discriminate.
    + specialize (H1 eq_refl); congruence.
Qed.

Lemma decoded_envelope_returned_whatever_its_status_witness :
  let treq := TagRequest.mk (Some ["http://x/img.jpg"]) None "" in
  let creq := ColorRequest.mk (Some ["http://x/img.jpg"]) None in
  let form := FeedbackForm.mk (Some ["12"]) None None None None None None in
  Client.Info (stub failureText) net0 =
  ((Some (InfoResp.mk "ALL_ERROR" "All images in request have failed."
                      InfoResp_Results.zero), None), mkNet tt [infoCall])
  /\ Client.Tag (stub failureText) treq net0 =
     ((Some (TagResp.mk "ALL_ERROR" "All images in request have failed."
                        TagResp_Meta.zero None), None), mkNet tt [tagCall treq])
  /\ Client.Color (stub failureText) creq net0 =
     ((Some (ColorResp.mk "ALL_ERROR" "All images in request have failed."
                          None), None), mkNet tt [colorCall creq])
  /\ Client.Feedback (stub failureText) form net0 =
     ((Some (FeedbackResp.mk "ALL_ERROR" "All images in request have failed."),
       None), mkNet tt [feedbackCall form]).
Proof.
  pose proof (decoded_envelope_returned_whatever_its_status
                unit (stub failureText) net0 failureText tt) as (Hi & Ht & Hc & Hf).
  intros treq creq form; split; [|split; [|split]].
  - apply Hi; reflexivity.
  - apply Ht; [cbn; lia | reflexivity | reflexivity].
  - apply Hc; [cbn; lia | reflexivity | reflexivity].
  - apply Hf; [split; [discriminate | intros H; exfalso; apply H; reflexivity]
              | reflexivity | reflexivity].
Defined.

(** C9: when the transport succeeds and [json.Unmarshal] returns an
    error, each method returns that error together with a non-nil
    envelope: the fresh envelope as [Unmarshal] left it. *)
Theorem decoding_error_comes_with_envelope :
  forall (W : Type) (client : Client.t W) (n : Net W) (res : string) (w : W)
         (e : error),
    (forall v,
        Client.transport client infoCall (world n) = ((res, None), w) ->
        Unmarshal InfoResp.decode res InfoResp.zero = (v, Some e) ->
        Client.Info client n = ((Some v, Some e), mkNet w (calls n ++ [infoCall])))
    /\
    (forall req v,
        1 <= len (TagRequest.URLs req) ->
        Client.transport client (tagCall req) (world n) = ((res, None), w) ->
        Unmarshal TagResp.decode res TagResp.zero = (v, Some e) ->
        Client.Tag client req n =
        ((Some v, Some e), mkNet w (calls n ++ [tagCall req])))
    /\
    (forall req v,
        1 <= len (ColorRequest.URLs req) ->
        Client.transport client (colorCall req) (world n) = ((res, None), w) ->
        Unmarshal ColorResp.decode res ColorResp.zero = (v, Some e) ->
        Client.Color client req n =
        ((Some v, Some e), mkNet w (calls n ++ [colorCall req])))
    /\
    (forall form v,
        (FeedbackForm.DocIDs form = None <-> FeedbackForm.URLs form <> None) ->
        Client.transport client (feedbackCall form) (world n) = ((res, None), w) ->
        Unmarshal FeedbackResp.decode res FeedbackResp.zero = (v, Some e) ->
        Client.Feedback client form n =
        ((Some v, Some e), mkNet w (calls n ++ [feedbackCall form]))).
Proof.
  intros W client n res w e; repeat split.
  - intros v Ht Hu; rewrite Info_run, Ht, Hu; reflexivity.
  - intros req v Hlen Ht Hu; rewrite Tag_run, Ht, Hu.
    destruct (len (TagRequest.URLs req)); [lia | reflexivity].
  - intros req v Hlen Ht Hu; rewrite Color_run, Ht, Hu.
    destruct (len (ColorRequest.URLs req)); [lia | reflexivity].
  - intros form v [H1 H2] Ht Hu; rewrite Feedback_run, Ht, Hu.
    destruct (FeedbackForm.DocIDs form), (FeedbackForm.URLs form);
      try reflexivity.
    + specialize (H2 ltac:(discriminate)); discriminate.
    + specialize (H1 eq_refl); congruence.
Qed.

Lemma decoding_error_comes_with_envelope_witness :
  let treq := TagRequest.mk (Some ["http://x/img.jpg"]) None "" in
  let creq := ColorRequest.mk (Some ["http://x/img.jpg"]) None in
  let form := FeedbackForm.mk (Some ["12"]) None None None None None None in
  let e := UnmarshalTypeError "number" "string" in
  Client.Info (stub wrongKindText) net0 =
  ((Some (InfoResp.mk "" "Not Found" InfoResp_Results.zero), Some e),
   mkNet tt [infoCall])
  /\ Client.Tag (stub wrongKindText) treq net0 =
     ((Some (TagResp.mk "" "Not Found" TagResp_Meta.zero None), Some e),
      mkNet tt [tagCall treq])
  /\ Client.Color (stub wrongKindText) creq net0 =
     ((Some (ColorResp.mk "" "Not Found" None), Some e), mkNet tt [colorCall creq])
  /\ Client.Feedback (stub wrongKindText) form net0 =
     ((Some (FeedbackResp.mk "" "Not Found"), Some e),
      mkNet tt [feedbackCall form]).
Proof.
  pose proof (decoding_error_comes_with_envelope
                unit (stub wrongKindText) net0 wrongKindText tt
                (UnmarshalTypeError "number" "string")) as (Hi & Ht & Hc & Hf).
  intros treq creq form; split; [|split; [|split]].
  - apply Hi; reflexivity.
  - apply Ht; [cbn; lia | reflexivity | reflexivity].
  - apply Hc; [cbn; lia | reflexivity | reflexivity].
  - apply Hf; [split; [discriminate | intros H; exfalso; apply H; reflexivity]
              | reflexivity | reflexivity].
Defined.

(** ** The wire form of the requests *)

Lemma omitempty_strings_spec (name : string) (s : slice string) (k : string) (v : value) :
  In (k, v) (omitempty_strings name s) ->
  k = name /\ len s <> 0 /\ is_empty_value v = false.
Proof.
  destruct s as [[|x l]|]; cbn; try tauto.
  intros [H|[]]; inversion H; subst; repeat split; discriminate.
Qed.

Lemma omitempty_string_spec (name s k : string) (v : value) :
  In (k, v) (omitempty_string name s) ->
  k = name /\ s <> "" /\ is_empty_value v = false.
Proof.
  destruct s as [|c s]; cbn; try tauto.
  intros [H|[]]; inversion H; subst; repeat split; discriminate.
Qed.

Lemma in_keys (k : string) (v : value) :
  In k (keys v) -> exists x, In (k, x) (members v).
Proof.
  unfold keys; intros H; apply in_map_iff in H.
  destruct H as [[k' x] [E H]]; cbn in E; subst; eauto.
Qed.

(** Splits membership in the member list of an encoded request into
    one case per field. *)
Ltac by_field H :=
  cbn [members TagRequest.encode ColorRequest.encode FeedbackForm.encode toJSON] in H;
  repeat (apply in_app_or in H; destruct H as [H|H]);
  try (apply omitempty_strings_spec in H; destruct H as (Hk & Hlen & Hv));
  try (apply omitempty_string_spec in H; destruct H as (Hk & Hlen & Hv)).

(** C8: in the JSON object that is serialized as the body of a request,
    an optional field that is unset (a slice of length zero, which
    includes nil; the empty model name) has no member at all, and no
    member of an optional field is ever [null], the empty array or the
    empty string; the [url] member of a [TagRequest] or [ColorRequest]
    is always there. *)
Theorem unset_optional_fields_omitted :
  (forall r : TagRequest.t,
      Marshal (BodyTag r) = render (toJSON (BodyTag r))
      /\ In "url" (keys (toJSON (BodyTag r)))
      /\ (len (TagRequest.LocalIDs r) = 0 ->
          ~ In "local_ids" (keys (toJSON (BodyTag r))))
      /\ (TagRequest.Model r = "" -> ~ In "model" (keys (toJSON (BodyTag r))))
      /\ (forall k v, In (k, v) (members (toJSON (BodyTag r))) ->
                      k <> "url" -> is_empty_value v = false))
  /\
  (forall r : ColorRequest.t,
      Marshal (BodyColor r) = render (toJSON (BodyColor r))
      /\ In "url" (keys (toJSON (BodyColor r)))
      /\ (len (ColorRequest.LocalIDs r) = 0 ->
          ~ In "local_ids" (keys (toJSON (BodyColor r))))
      /\ (forall k v, In (k, v) (members (toJSON (BodyColor r))) ->
                      k <> "url" -> is_empty_value v = false))
  /\
  (forall r : FeedbackForm.t,
      Marshal (BodyFeedback r) = render (toJSON (BodyFeedback r))
      /\ (len (FeedbackForm.DocIDs r) = 0 ->
          ~ In "docids" (keys (toJSON (BodyFeedback r))))
      /\ (len (FeedbackForm.URLs r) = 0 ->
          ~ In "url" (keys (toJSON (BodyFeedback r))))
      /\ (len (FeedbackForm.AddTags r) = 0 ->
          ~ In "add_tags" (keys (toJSON (BodyFeedback r))))
      /\ (len (FeedbackForm.RemoveTags r) = 0 ->
          ~ In "remove_tags" (keys (toJSON (BodyFeedback r))))
      /\ (len (FeedbackForm.DissimilarDocIDs r) = 0 ->
          ~ In "dissimilar_docids" (keys (toJSON (BodyFeedback r))))
      /\ (len (FeedbackForm.SimilarDocIDs r) = 0 ->
          ~ In "similar_docids" (keys (toJSON (BodyFeedback r))))
      /\ (len (FeedbackForm.SearchClick r) = 0 ->
          ~ In "search_click" (keys (toJSON (BodyFeedback r))))
      /\ (forall k v, In (k, v) (members (toJSON (BodyFeedback r))) ->
                      is_empty_value v = false)).
Proof.
  split; [|split]; intros r.
  - split; [reflexivity|]. split; [left; reflexivity|].
    split; [|split].
    + intros H0 H; apply in_keys in H; destruct H as [x H].
      by_field H; try congruence.
      destruct H as [H|[]]; discriminate.
    + intros H0 H; apply in_keys in H; destruct H as [x H].
      by_field H; try congruence.
      destruct H as [H|[]]; discriminate.
    + intros k v H Hk'. by_field H; try assumption.
      destruct H as [H|[]]; inversion H; subst; congruence.
  - split; [reflexivity|]. split; [left; reflexivity|].
    split.
    + intros H0 H; apply in_keys in H; destruct H as [x H].
      by_field H; try congruence.
      destruct H as [H|[]]; discriminate.
    + intros k v H Hk'. by_field H; try assumption.
      destruct H as [H|[]]; inversion H; subst; congruence.
  - split; [reflexivity|].
    repeat split;
      try (intros H0 H; apply in_keys in H; destruct H as [x H];
           by_field H; congruence).
    intros k v H; by_field H; assumption.
Qed.

Lemma unset_optional_fields_omitted_witness :
  let t := TagRequest.mk (Some ["http://x/img.jpg"]) None "" in
  let c := ColorRequest.mk None (Some []) in
  let f := FeedbackForm.mk (Some ["12"]) None (Some ["cat"]) None (Some []) None None in
  (~ In "local_ids" (keys (toJSON (BodyTag t)))
   /\ ~ In "model" (keys (toJSON (BodyTag t)))
   /\ Marshal (BodyTag t) = dq "{'url':['http://x/img.jpg']}")
  /\ (~ In "local_ids" (keys (toJSON (BodyColor c)))
      /\ Marshal (BodyColor c) = dq "{'url':null}")
  /\ (~ In "url" (keys (toJSON (BodyFeedback f)))
      /\ ~ In "dissimilar_docids" (keys (toJSON (BodyFeedback f)))
      /\ Marshal (BodyFeedback f) = dq "{'docids':['12'],'add_tags':['cat']}").
Proof.
  intros t c f.
  destruct unset_optional_fields_omitted as (HT & HC & HF).
  destruct (HT t) as (_ & _ & Hl & Hm & _).
  destruct (HC c) as (_ & _ & Hcl & _).
  destruct (HF f) as (_ & _ & Hu & _ & _ & Hd & _).
  repeat split.
  - apply Hl; reflexivity.
  - apply Hm; reflexivity.
  - apply Hcl; reflexivity.
  - apply Hu; reflexivity.
  - apply Hd; reflexivity.
Defined.

(** The round trip at the level of JSON values, for every request:
    decoding what [TagRequest.encode] produces gives the request back,
    except that an allocated [LocalIDs] of length zero, which is left
    out, comes back as nil. *)
Lemma decode_elems_strings (l : list string) (d : decodeState) :
  aborted d = None ->
  decode_elems "" decode_string (List.map JString l) [] d = (l, d).
Proof.
  intros Hd; induction l as [|x l IH]; simpl; [reflexivity|].
  rewrite Hd, IH; reflexivity.
Qed.

Lemma TagRequest_decode_encode (r : TagRequest.t) :
  TagRequest.decode (TagRequest.encode r) TagRequest.zero
                    {| savedError := None; aborted := None |}
  = (TagRequest.mk (TagRequest.URLs r)
                   (match len (TagRequest.LocalIDs r) with
                    | O => None
                    | S _ => TagRequest.LocalIDs r
                    end)
                   (TagRequest.Model r),
     {| savedError := None; aborted := None |}).
Proof.
  destruct r as [[us|] [[|i ids]|] [|c m]]; cbn;
    rewrite ?decode_elems_strings by reflexivity; cbn;
    rewrite ?decode_elems_strings by reflexivity; reflexivity.
Qed.

(** C6: the request with URLs a, b and local identifiers 1, 2 is
    serialized as an object with the two arrays, and decoding that text
    into a fresh [TagRequest] gives the request back: the URLs in the
    same order, and the same local identifier at the position of each
    URL. *)
Theorem TagRequest_round_trip :
  let req := TagRequest.mk (Some ["a"; "b"]) (Some ["1"; "2"]) "" in
  Marshal (BodyTag req) = dq "{'url':['a','b'],'local_ids':['1','2']}"
  /\ exists back : TagRequest.t,
      Unmarshal TagRequest.decode (Marshal (BodyTag req)) TagRequest.zero
      = (back, None)
      /\ back = req
      /\ TagRequest.URLs back = Some ["a"; "b"]
      /\ option_map (List.combine ["a"; "b"]) (TagRequest.LocalIDs back)
         = Some [("a", "1"); ("b", "2")].
Proof.
  cbv zeta; split; [reflexivity|].
  eexists; split; [vm_compute; reflexivity|].
  repeat split.
Qed.

(** ** Document identifiers *)

Lemma nzhead_not_D0 (d : Decimal.uint) :
  match Decimal.nzhead d with Decimal.D0 _ => False | _ => True end.
Proof. induction d; simpl; auto. Qed.

Lemma to_uint_leading_nonzero (p : positive) : leading_nonzero (Pos.to_uint p).
Proof.
  pose proof (DecimalPos.Unsigned.to_of (Pos.to_uint p)) as H.
  rewrite DecimalPos.Unsigned.of_to in H; simpl in H.
  pose proof (DecimalPos.Unsigned.to_uint_nonzero p) as Hz.
  pose proof (nzhead_not_D0 (Pos.to_uint p)) as Hn.
  unfold Decimal.unorm in H.
  destruct (Decimal.nzhead (Pos.to_uint p)); try (rewrite H; exact I);
    [contradiction | contradiction].
Qed.

Lemma span_digits_numeral (d : Decimal.uint) (rest : string) :
  ends_number rest = true ->
  scanner.span_digits (NilEmpty.string_of_uint d ++ rest)
  = (NilEmpty.string_of_uint d, rest).
Proof.
  intros H; induction d; simpl; rewrite ?IHd; try reflexivity.
  destruct rest as [|c r]; [reflexivity|]; simpl in *.
  destruct (scanner.is_digit c); [discriminate | reflexivity].
Qed.

Lemma append_empty (s : string) : s ++ "" = s.
Proof. induction s; simpl; congruence. Qed.

Lemma ends_number_stops (c : ascii) (r : string) :
  ends_number (String c r) = true ->
  scanner.lex_frac (String c r) = Some ("", String c r)
  /\ scanner.lex_exp (String c r) = Some ("", String c r).
Proof.
  unfold ends_number, scanner.lex_frac, scanner.lex_exp; intros H.
  apply negb_true_iff in H.
  repeat (apply orb_false_iff in H; destruct H as [H ?]).
  rewrite H2, H1, H0; split; reflexivity.
Qed.

Lemma lex_number_numeral (d : Decimal.uint) (rest : string) :
  leading_nonzero d -> ends_number rest = true ->
  scanner.lex_number (NilEmpty.string_of_uint d ++ rest)
  = Some (NilEmpty.string_of_uint d, rest).
Proof.
  intros Hd H.
  assert (scanner.lex_frac rest = Some ("", rest)
          /\ scanner.lex_exp rest = Some ("", rest)) as [Hf He].
  { destruct rest as [|c r]; [split; reflexivity|].
    apply ends_number_stops; assumption. }
  destruct d; try contradiction; unfold scanner.lex_number; simpl;
    rewrite (span_digits_numeral _ _ H), Hf, He;
    simpl; rewrite !append_empty; reflexivity.
Qed.

(** The decimal form of a positive number is read back as that
    number, whatever its size. *)
Lemma String_numeral (p : positive) :
  big.String_ (Z.pos p) = NilEmpty.string_of_uint (Pos.to_uint p).
Proof.
  unfold big.String_; simpl.
  pose proof (to_uint_leading_nonzero p) as H.
  destruct (Pos.to_uint p); try contradiction; reflexivity.
Qed.

Lemma UnmarshalJSON_String (p : positive) :
  big.UnmarshalJSON (big.String_ (Z.pos p)) = Some (Z.pos p).
Proof.
  unfold big.UnmarshalJSON.
  rewrite String_numeral.
  rewrite <- (append_empty (NilEmpty.string_of_uint (Pos.to_uint p))) at 1.
  rewrite lex_number_numeral by (auto using to_uint_leading_nonzero).
  rewrite <- String_numeral; unfold big.String_.
  rewrite NilZero.isi.
  - simpl option_map. f_equal. apply (DecimalZ.of_to (Z.pos p)).
  - simpl. intros E; injection E as E.
    apply (DecimalPos.Unsigned.to_uint_nonnil p E).
  - discriminate.
Qed.

Lemma lex_string_numeral (d : Decimal.uint) (rest : string) :
  lex_string 0 true (NilEmpty.string_of_uint d ++ String dquote rest)
  = Some (NilEmpty.string_of_uint d, rest).
Proof.
  induction d; simpl; rewrite ?IHd; reflexivity.
Qed.

Lemma parse_value_numeral (d : Decimal.uint) (rest : string) (fuel : nat) (depth : N) :
  leading_nonzero d -> ends_number rest = true ->
  parse_value (S fuel) depth (NilEmpty.string_of_uint d ++ rest)
  = Some (JNumber (NilEmpty.string_of_uint d), rest).
Proof.
  intros Hd H.
  pose proof (lex_number_numeral d rest Hd H) as L.
  destruct d; try contradiction; simpl in *; unfold value_at; simpl;
    rewrite L; reflexivity.
Qed.

Lemma length_append (a b : string) :
  String.length (a ++ b) = String.length a + String.length b.
Proof. induction a; simpl; congruence. Qed.

Lemma parse_value_S fuel depth s :
  parse_value (S fuel) depth s
  = value_at (parse_members fuel) (parse_elems fuel) depth s.
Proof. reflexivity. Qed.

Lemma parse_members_S fuel depth s :
  parse_members (S fuel) depth s
  = members_at (parse_value fuel) (parse_members fuel) depth s.
Proof. reflexivity. Qed.

Lemma parse_elems_S fuel depth s :
  parse_elems (S fuel) depth s
  = elems_at (parse_value fuel) (parse_elems fuel) depth s.
Proof. reflexivity. Qed.

(** One step of the parser on a text whose numerals are symbolic. *)
Ltac scan_step :=
  first [ rewrite parse_value_numeral by (assumption || reflexivity)
        | rewrite lex_string_numeral
        | rewrite parse_value_S; unfold value_at
        | rewrite parse_members_S; unfold members_at
        | rewrite parse_elems_S; unfold elems_at ];
  cbn.

Section ScanResponse.
#[local] Arguments parse_value : simpl never.
#[local] Arguments parse_members : simpl never.
#[local] Arguments parse_elems : simpl never.

Lemma scan_idResponse (d : Decimal.uint) :
  leading_nonzero d ->
  scan (idResponse (NilEmpty.string_of_uint d))
  = Some (idResponseValue (NilEmpty.string_of_uint d)).
Proof.
  intros Hd; unfold scan.
  assert (exists k, 2 * String.length (idResponse (NilEmpty.string_of_uint d)) + 2
                    = 14 + k) as [k ->].
  { eexists (2 * String.length (idResponse (NilEmpty.string_of_uint d)) + 2 - 14).
    unfold idResponse; rewrite length_append; simpl String.length; lia. }
  unfold idResponse.
  cbn [Nat.add dq Ascii.eqb Bool.eqb append].
  repeat scan_step.
  reflexivity.
Qed.
End ScanResponse.

Section DecodeResponse.
#[local] Arguments big.UnmarshalJSON : simpl never.
#[local] Arguments big.String_ : simpl never.

Lemma Unmarshal_idResponse (p : positive) :
  Unmarshal TagResp.decode (idResponse (big.String_ (Z.pos p))) TagResp.zero
  = (idTagResp (Z.pos p), None)
  /\
  Unmarshal ColorResp.decode (idResponse (big.String_ (Z.pos p))) ColorResp.zero
  = (idColorResp (Z.pos p), None).
Proof.
  unfold Unmarshal.
  rewrite String_numeral at 1 2.
  rewrite scan_idResponse by apply to_uint_leading_nonzero.
  rewrite <- String_numeral.
  split; cbn; rewrite UnmarshalJSON_String; reflexivity.
Qed.
End DecodeResponse.

(** C5: a response whose document identifier [n] exceeds 2^63 decodes
    without error, for [Tag] and for [Color] alike, into a result whose
    [DocID] is exactly [n] and whose [DocIDString] is the decimal form
    of [n], which is also what [DocID.String()] gives; nothing wraps
    around or is cut off, however large [n] is. *)
Theorem large_document_identifier_exact :
  forall n : Z,
    (2 ^ 63 < n)%Z ->
    Unmarshal TagResp.decode (idResponse (big.String_ n)) TagResp.zero
    = (idTagResp n, None)
    /\ Unmarshal ColorResp.decode (idResponse (big.String_ n)) ColorResp.zero
       = (idColorResp n, None)
    /\ big.UnmarshalJSON (big.String_ n) = Some n.
Proof.
  intros n Hn; destruct n as [|p|p]; try lia.
  destruct (Unmarshal_idResponse p) as [Ht Hc].
  repeat split; auto using UnmarshalJSON_String.
Qed.

Lemma large_document_identifier_exact_witness :
  let n := (2 ^ 64 + 1)%Z in
  let treq := TagRequest.mk (Some ["http://x/img.jpg"]) None "" in
  big.String_ n = "18446744073709551617"
  /\ Client.Tag (stub (idResponse "18446744073709551617")) treq net0
     = ((Some (idTagResp n), None), mkNet tt [tagCall treq])
  /\ Unmarshal ColorResp.decode (idResponse "18446744073709551617") ColorResp.zero
     = (idColorResp n, None).
Proof.
  intros n treq.
  destruct (large_document_identifier_exact n) as (Ht & Hc & _);
    [reflexivity|].
  split; [reflexivity|]. split.
  - rewrite Tag_run; cbn [len TagRequest.URLs List.length stub Client.transport].
    change "18446744073709551617" with (big.String_ n).
    rewrite Ht; reflexivity.
  - exact Hc.
Defined.

(** ** The fuel of [scan] is enough

    Each parser consumes at least one character when it succeeds, and
    a successful parse needs no more fuel than twice the number of
    characters it consumes. *)

Lemma skip_space_le (s : string) :
  String.length (scanner.skip_space s) <= String.length s.
Proof.
  induction s as [|c s IH]; simpl; [lia|].
  destruct (scanner.is_space c); simpl; lia.
Qed.

Lemma expect_length (c : ascii) (s r : string) :
  expect c s = Some r -> String.length r < String.length s.
Proof.
  unfold expect; pose proof (skip_space_le s) as L.
  destruct (scanner.skip_space s) as [|c' t]; [discriminate|].
  destruct (Ascii.eqb c' c); [|discriminate].
  intros H; inversion H; subst; simpl in L; lia.
Qed.

Lemma span_digits_le (s ds r : string) :
  scanner.span_digits s = (ds, r) -> String.length r <= String.length s.
Proof.
  revert ds r; induction s as [|c s IH]; simpl; intros ds r H.
  - inversion H; simpl; lia.
  - destruct (scanner.is_digit c).
    + destruct (scanner.span_digits s) as [ds' r'] eqn:E.
      inversion H; subst. specialize (IH _ _ eq_refl); lia.
    + inversion H; subst; simpl; lia.
Qed.

Lemma strip_prefix_length (kw s r : string) :
  strip_prefix kw s = Some r ->
  String.length s = String.length kw + String.length r.
Proof.
  revert s; induction kw as [|a kw IH]; simpl; intros s H.
  - inversion H; reflexivity.
  - destruct s as [|b s]; [discriminate|].
    destruct (Ascii.eqb a b); [|discriminate].
    simpl; rewrite (IH _ H); reflexivity.
Qed.

Lemma keyword_length (kw : string) (v v' : value) (s r : string) :
  keyword kw v s = Some (v', r) ->
  String.length s = String.length kw + String.length r.
Proof.
  unfold keyword; destruct (strip_prefix kw s) eqn:E; [|discriminate].
  intros H; inversion H; subst.
  apply strip_prefix_length; assumption.
Qed.

Lemma lex_number_lt (s lit r : string) :
  scanner.lex_number s = Some (lit, r) -> String.length r < String.length s.
Proof.
  unfold scanner.lex_number, scanner.lex_sign, scanner.lex_int,
    scanner.lex_frac, scanner.lex_exp, scanner.lex_expsign; intros H.
  repeat match type of H with
         | context [match ?x with _ => _ end] =>
           destruct x eqn:?; try discriminate H
         end.
  all: repeat match goal with
         | E : (_, _) = (_, _) |- _ => inversion E; subst; clear E
         | E : Some _ = Some _ |- _ => inversion E; subst; clear E
         | E : context [match ?x with _ => _ end] |- _ =>
           destruct x eqn:?; try discriminate E
         end.
  all: repeat match goal with
         | E : scanner.span_digits _ = _ |- _ => apply span_digits_le in E
         end; simpl in *; lia.
Qed.

Lemma prepend_Some (p x r : string) (o : option (string * string)) :
  prepend p o = Some (x, r) -> exists x', o = Some (x', r).
Proof.
  destruct o as [[x' r']|]; simpl; [|discriminate].
  intros H; inversion H; subst; eauto.
Qed.

Lemma lex_string_lt (s : string) :
  forall (skip : nat) (copy : bool) (x r : string),
    lex_string skip copy s = Some (x, r) -> String.length r < String.length s.
Proof.
  induction s as [|c t IH]; intros skip copy x r H; cbn [lex_string] in H;
    [discriminate|].
  assert (forall k b o, prepend o (lex_string k b t) = Some (x, r) ->
                        String.length r < String.length (String c t)) as P.
  { intros k b o E; apply prepend_Some in E; destruct E as [x' E].
    apply IH in E; simpl; lia. }
  destruct skip as [|k].
  - destruct (Ascii.eqb c dquote).
    { inversion H; subst; simpl; lia. }
    destruct (Ascii.eqb c bslash).
    { destruct (unescape t) as [[bytes width]|];
        [eapply P; eassumption | discriminate]. }
    destruct (N.ltb (N_of_ascii c) 32); [discriminate|].
    destruct (N.ltb (N_of_ascii c) 128); [eapply P; eassumption|].
    destruct (utf8.DecodeRune (String c t)) as [rr size].
    destruct (Nat.eqb size 1); eapply P; eassumption.
  - destruct copy; [eapply P; eassumption|].
    apply IH in H; simpl; lia.
Qed.

(** Facts about the lengths of the texts in the context. *)
Ltac lengths :=
  repeat match goal with
         | E : expect _ _ = Some _ |- _ => apply expect_length in E
         | E : lex_string _ _ _ = Some _ |- _ => apply lex_string_lt in E
         | E : scanner.lex_number _ = Some _ |- _ => apply lex_number_lt in E
         | E : keyword _ _ _ = Some _ |- _ => apply keyword_length in E
         end;
  unfold enough in *; simpl String.length in *.

Lemma fuel_enough (fuel : nat) :
  (forall d s v r,
      parse_value fuel d s = Some (v, r) ->
      String.length r < String.length s
      /\ forall fuel', enough s r fuel' -> parse_value fuel' d s = Some (v, r))
  /\
  (forall d s ms r,
      parse_members fuel d s = Some (ms, r) ->
      String.length r < String.length s
      /\ forall fuel', enough s r fuel' -> parse_members fuel' d s = Some (ms, r))
  /\
  (forall d s vs r,
      parse_elems fuel d s = Some (vs, r) ->
      String.length r < String.length s
      /\ forall fuel', enough s r fuel' -> parse_elems fuel' d s = Some (vs, r)).
Proof.
  induction fuel as [|fuel (IHv & IHm & IHe)];
    [repeat split; intros; discriminate|].
  split; [|split].
  - intros d s v r H. rewrite parse_value_S in H. unfold value_at in H.
    pose proof (skip_space_le s) as Ls.
    destruct (scanner.skip_space s) as [|c t] eqn:Es; [discriminate|].
    repeat match type of H with
           | context [match ?x with _ => _ end] =>
             destruct x eqn:?; try discriminate H
           end.
    all: try match type of H with
             | Some _ = Some _ => inversion H; subst; clear H
             end.
    all: try match goal with
             | E : parse_members _ _ _ = Some _ |- _ =>
               apply IHm in E; destruct E as [L K]
             | E : parse_elems _ _ _ = Some _ |- _ =>
               apply IHe in E; destruct E as [L K]
             end.
    all: split; [lengths; lia | intros [|g] En; [lengths; lia|]].
    all: rewrite parse_value_S; unfold value_at; rewrite Es.
    all: repeat match goal with
                | E : _ = true |- _ => rewrite E; clear E
                | E : _ = false |- _ => rewrite E; clear E
                | E : expect _ _ = _ |- _ => rewrite E
                | E : lex_string _ _ _ = _ |- _ => rewrite E
                | E : scanner.lex_number _ = _ |- _ => rewrite E
                end.
    all: try reflexivity; try assumption.
    all: try (rewrite K; [reflexivity | lengths; lia]).
  - intros d s ms r H. rewrite parse_members_S in H. unfold members_at in H.
    repeat match type of H with
           | context [match ?x with _ => _ end] =>
             destruct x eqn:?; try discriminate H
           end.
    all: inversion H; subst; clear H.
    all: repeat match goal with
                | E : parse_value _ _ _ = Some _ |- _ =>
                  apply IHv in E; destruct E as [Lv Kv]
                | E : parse_members _ _ _ = Some _ |- _ =>
                  apply IHm in E; destruct E as [L K]
                end.
    all: split; [lengths; lia | intros [|g] En; [lengths; lia|]].
    all: rewrite parse_members_S; unfold members_at.
    all: repeat match goal with
                | E : expect _ _ = _ |- _ => rewrite E
                | E : lex_string _ _ _ = _ |- _ => rewrite E
                end.
    all: rewrite Kv by (lengths; lia).
    all: repeat match goal with
                | E : expect _ _ = _ |- _ => rewrite E
                end.
    all: try reflexivity.
    all: rewrite K by (lengths; lia); reflexivity.
  - intros d s vs r H. rewrite parse_elems_S in H. unfold elems_at in H.
    repeat match type of H with
           | context [match ?x with _ => _ end] =>
             destruct x eqn:?; try discriminate H
           end.
    all: inversion H; subst; clear H.
    all: repeat match goal with
                | E : parse_value _ _ _ = Some _ |- _ =>
                  apply IHv in E; destruct E as [Lv Kv]
                | E : parse_elems _ _ _ = Some _ |- _ =>
                  apply IHe in E; destruct E as [L K]
                end.
    all: split; [lengths; lia | intros [|g] En; [lengths; lia|]].
    all: rewrite parse_elems_S; unfold elems_at.
    all: rewrite Kv by (lengths; lia).
    all: repeat match goal with
                | E : expect _ _ = _ |- _ => rewrite E
                end.
    all: try reflexivity.
    all: rewrite K by (lengths; lia); reflexivity.
Qed.

(** Whatever fuel a parse of the whole text succeeds with, [scan]
    finds the same value: its own fuel never runs out. *)
Lemma scan_fuel_independent (fuel : nat) (data : string) (v : value)
      (r : string) :
  parse_value fuel 0%N data = Some (v, r) ->
  scanner.skip_space r = EmptyString ->
  scan data = Some v.
Proof.
  intros H E. destruct (fuel_enough fuel) as (Hv & _ & _).
  destruct (Hv _ _ _ _ H) as [L K].
  unfold scan. rewrite (K (2 * String.length data + 2)).
  - rewrite E; reflexivity.
  - unfold enough; lia.
Qed.

(** ** What a call does to the transport, and what comes back *)

(** X1: no method calls the transport more than once.  [Info] checks
    nothing and always makes its one call; [Tag], [Color] and
    [Feedback] either leave the transport and its log untouched or add
    exactly one call, that of their own endpoint with the request as it
    was given: nothing is retried. *)
Theorem transport_called_at_most_once :
  forall (W : Type) (client : Client.t W) (n : Net W),
    snd (Client.Info client n)
    = mkNet (snd (Client.transport client infoCall (world n)))
            (calls n ++ [infoCall])
    /\ (forall req,
        snd (Client.Tag client req n) = n
        \/ calls (snd (Client.Tag client req n)) = (calls n ++ [tagCall req])%list)
    /\ (forall req,
        snd (Client.Color client req n) = n
        \/ calls (snd (Client.Color client req n))
           = (calls n ++ [colorCall req])%list)
    /\ (forall form,
        snd (Client.Feedback client form n) = n
        \/ calls (snd (Client.Feedback client form n))
           = (calls n ++ [feedbackCall form])%list).
Proof.
  intros W client n; split; [|split; [|split]].
  - rewrite Info_run.
    destruct (Client.transport client infoCall (world n)) as [[res [e|]] w];
      cbn; [reflexivity|].
    destruct (Unmarshal InfoResp.decode res InfoResp.zero); reflexivity.
  - intros req; rewrite Tag_run.
    destruct (len (TagRequest.URLs req)); [left; reflexivity | right].
    destruct (Client.transport client (tagCall req) (world n)) as [[res [e|]] w];
      cbn; [reflexivity|].
    destruct (Unmarshal TagResp.decode res TagResp.zero); reflexivity.
  - intros req; rewrite Color_run.
    destruct (len (ColorRequest.URLs req)); [left; reflexivity | right].
    destruct (Client.transport client (colorCall req) (world n)) as [[res [e|]] w];
      cbn; [reflexivity|].
    destruct (Unmarshal ColorResp.decode res ColorResp.zero); reflexivity.
  - intros form; rewrite Feedback_run.
    destruct (FeedbackForm.DocIDs form), (FeedbackForm.URLs form);
      try (left; reflexivity); right;
      destruct (Client.transport client (feedbackCall form) (world n))
        as [[res e] w]; cbn;
      destruct (Unmarshal FeedbackResp.decode res FeedbackResp.zero); reflexivity.
Qed.

(** X2: when the transport reports an error, [Info], [Tag] and [Color]
    return that very error with a nil response, whatever bytes came
    with it: nothing is decoded. *)
Theorem transport_error_returned_unchanged :
  forall (W : Type) (client : Client.t W) (n : Net W) (res : string) (e : error)
         (w : W),
    (Client.transport client infoCall (world n) = ((res, Some e), w) ->
     Client.Info client n = ((None, Some e), mkNet w (calls n ++ [infoCall])))
    /\
    (forall req, 1 <= len (TagRequest.URLs req) ->
       Client.transport client (tagCall req) (world n) = ((res, Some e), w) ->
       Client.Tag client req n = ((None, Some e), mkNet w (calls n ++ [tagCall req])))
    /\
    (forall req, 1 <= len (ColorRequest.URLs req) ->
       Client.transport client (colorCall req) (world n) = ((res, Some e), w) ->
       Client.Color client req n =
       ((None, Some e), mkNet w (calls n ++ [colorCall req]))).
Proof.
  intros W client n res e w; split; [|split].
  - intros H; rewrite Info_run, H; reflexivity.
  - intros req Hlen H; rewrite Tag_run, H.
    destruct (len (TagRequest.URLs req)); [lia | reflexivity].
  - intros req Hlen H; rewrite Color_run, H.
    destruct (len (ColorRequest.URLs req)); [lia | reflexivity].
Qed.

(** A transport that fails although it received a well-formed body. *)
Lemma transport_error_returned_unchanged_witness :
  let e := foreignError "Get https://api.clarifai.com/v1/info/: EOF" in
  let treq := TagRequest.mk (Some ["http://x/img.jpg"]) None "" in
  let creq := ColorRequest.mk (Some ["http://x/img.jpg"]) None in
  Client.Info (failing failureText e) net0 = ((None, Some e), mkNet tt [infoCall])
  /\ Client.Tag (failing failureText e) treq net0
     = ((None, Some e), mkNet tt [tagCall treq])
  /\ Client.Color (failing failureText e) creq net0
     = ((None, Some e), mkNet tt [colorCall creq]).
Proof.
  intros e treq creq.
  pose proof (transport_error_returned_unchanged
                unit (failing failureText e) net0 failureText e tt)
    as (Hi & Ht & Hc).
  split; [|split].
  - apply Hi; reflexivity.
  - apply Ht; [cbn; lia | reflexivity].
  - apply Hc; [cbn; lia | reflexivity].
Defined.

(** X3: no method ever returns a nil response together with a nil
    error: a caller that finds the error nil may use the response. *)
Theorem nil_response_never_without_error :
  forall (W : Type) (client : Client.t W) (n : Net W),
    fst (Client.Info client n) <> (None, None)
    /\ (forall req, fst (Client.Tag client req n) <> (None, None))
    /\ (forall req, fst (Client.Color client req n) <> (None, None))
    /\ (forall form, fst (Client.Feedback client form n) <> (None, None)).
Proof.
  intros W client n; split; [|split; [|split]].
  - rewrite Info_run.
    destruct (Client.transport client infoCall (world n)) as [[res [e|]] w];
      cbn; [discriminate|].
    destruct (Unmarshal InfoResp.decode res InfoResp.zero); discriminate.
  - intros req; rewrite Tag_run.
    destruct (len (TagRequest.URLs req)); [discriminate|].
    destruct (Client.transport client (tagCall req) (world n)) as [[res [e|]] w];
      cbn; [discriminate|].
    destruct (Unmarshal TagResp.decode res TagResp.zero); discriminate.
  - intros req; rewrite Color_run.
    destruct (len (ColorRequest.URLs req)); [discriminate|].
    destruct (Client.transport client (colorCall req) (world n)) as [[res [e|]] w];
      cbn; [discriminate|].
    destruct (Unmarshal ColorResp.decode res ColorResp.zero); discriminate.
  - intros form; rewrite Feedback_run.
    destruct (FeedbackForm.DocIDs form), (FeedbackForm.URLs form);
      try discriminate;
      destruct (Client.transport client (feedbackCall form) (world n))
        as [[res e] w]; cbn;
      destruct (Unmarshal FeedbackResp.decode res FeedbackResp.zero); discriminate.
Qed.

Lemma Unmarshal_no_error {T : Type} (dec : decoder T) (data : string) (v v' : T) :
  Unmarshal dec data v = (v', None) -> exists j, scan data = Some j.
Proof.
  unfold Unmarshal; destruct (scan data) as [j|]; [eauto | discriminate].
Qed.

Lemma Unmarshal_syntax_error {T : Type} (dec : decoder T) (data : string) (v : T) :
  scan data = None -> Unmarshal dec data v = (v, Some SyntaxError).
Proof. unfold Unmarshal; intros ->; reflexivity. Qed.

(** X4: when [Info], [Tag] or [Color] returns a nil error, the request
    passed the check, the transport was called once and reported no
    error, the bytes it returned are a well-formed JSON text, and the
    response is not nil. *)
Theorem nil_error_means_a_response_was_decoded :
  forall (W : Type) (client : Client.t W) (n : Net W),
    (snd (fst (Client.Info client n)) = None ->
     exists res w j v,
       Client.transport client infoCall (world n) = ((res, None), w)
       /\ scan res = Some j
       /\ Client.Info client n = ((Some v, None), mkNet w (calls n ++ [infoCall])))
    /\
    (forall req,
        snd (fst (Client.Tag client req n)) = None ->
        exists res w j v,
          1 <= len (TagRequest.URLs req)
          /\ Client.transport client (tagCall req) (world n) = ((res, None), w)
          /\ scan res = Some j
          /\ Client.Tag client req n
             = ((Some v, None), mkNet w (calls n ++ [tagCall req])))
    /\
    (forall req,
        snd (fst (Client.Color client req n)) = None ->
        exists res w j v,
          1 <= len (ColorRequest.URLs req)
          /\ Client.transport client (colorCall req) (world n) = ((res, None), w)
          /\ scan res = Some j
          /\ Client.Color client req n
             = ((Some v, None), mkNet w (calls n ++ [colorCall req]))).
Proof.
  intros W client n; split; [|split].
  - rewrite Info_run.
    destruct (Client.transport client infoCall (world n)) as [[res [e|]] w];
      cbn; [discriminate|].
    destruct (Unmarshal InfoResp.decode res InfoResp.zero) as [v [e|]] eqn:E;
      cbn; [discriminate|]; intros _.
    destruct (Unmarshal_no_error _ _ _ _ E) as [j Hj].
    exists res, w, j, v; repeat split; assumption.
  - intros req; rewrite Tag_run.
    destruct (len (TagRequest.URLs req)); [discriminate|].
    destruct (Client.transport client (tagCall req) (world n)) as [[res [e|]] w];
      cbn; [discriminate|].
    destruct (Unmarshal TagResp.decode res TagResp.zero) as [v [e|]] eqn:E;
      cbn; [discriminate|]; intros _.
    destruct (Unmarshal_no_error _ _ _ _ E) as [j Hj].
    exists res, w, j, v; repeat split; try assumption; lia.
  - intros req; rewrite Color_run.
    destruct (len (ColorRequest.URLs req)); [discriminate|].
    destruct (Client.transport client (colorCall req) (world n)) as [[res [e|]] w];
      cbn; [discriminate|].
    destruct (Unmarshal ColorResp.decode res ColorResp.zero) as [v [e|]] eqn:E;
      cbn; [discriminate|]; intros _.
    destruct (Unmarshal_no_error _ _ _ _ E) as [j Hj].
    exists res, w, j, v; repeat split; try assumption; lia.
Qed.

Lemma nil_error_means_a_response_was_decoded_witness :
  let treq := TagRequest.mk (Some ["http://x/img.jpg"]) None "" in
  exists res w j v,
    1 <= len (TagRequest.URLs treq)
    /\ Client.transport (stub tagText) (tagCall treq) (world net0) = ((res, None), w)
    /\ scan res = Some j
    /\ Client.Tag (stub tagText) treq net0
       = ((Some v, None), mkNet w (calls net0 ++ [tagCall treq])).
Proof.
  intros treq.
  apply (proj1 (proj2 (nil_error_means_a_response_was_decoded
                         unit (stub tagText) net0)) treq).
  vm_compute; reflexivity.
Defined.

(** X5: when the bytes the transport returned are not a well-formed
    JSON text, every method returns a syntax error together with a
    fresh envelope in which nothing has been filled in; [Feedback] does
    so whether or not the transport also reported an error. *)
Theorem malformed_response_leaves_envelope_empty :
  forall (W : Type) (client : Client.t W) (n : Net W) (res : string) (w : W),
    scan res = None ->
    (Client.transport client infoCall (world n) = ((res, None), w) ->
     Client.Info client n =
     ((Some InfoResp.zero, Some SyntaxError), mkNet w (calls n ++ [infoCall])))
    /\
    (forall req, 1 <= len (TagRequest.URLs req) ->
       Client.transport client (tagCall req) (world n) = ((res, None), w) ->
       Client.Tag client req n =
       ((Some TagResp.zero, Some SyntaxError), mkNet w (calls n ++ [tagCall req])))
    /\
    (forall req, 1 <= len (ColorRequest.URLs req) ->
       Client.transport client (colorCall req) (world n) = ((res, None), w) ->
       Client.Color client req n =
       ((Some ColorResp.zero, Some SyntaxError),
        mkNet w (calls n ++ [colorCall req])))
    /\
    (forall form e,
       (FeedbackForm.DocIDs form = None <-> FeedbackForm.URLs form <> None) ->
       Client.transport client (feedbackCall form) (world n) = ((res, e), w) ->
       Client.Feedback client form n =
       ((Some FeedbackResp.zero, Some SyntaxError),
        mkNet w (calls n ++ [feedbackCall form]))).
Proof.
  intros W client n res w Hs; split; [|split; [|split]].
  - intros H; rewrite Info_run, H, Unmarshal_syntax_error by assumption.
    reflexivity.
  - intros req Hlen H; rewrite Tag_run, H, Unmarshal_syntax_error by assumption.
    destruct (len (TagRequest.URLs req)); [lia | reflexivity].
  - intros req Hlen H; rewrite Color_run, H, Unmarshal_syntax_error by assumption.
    destruct (len (ColorRequest.URLs req)); [lia | reflexivity].
  - intros form e [H1 H2] H.
    rewrite Feedback_run, H, Unmarshal_syntax_error by assumption.
    destruct (FeedbackForm.DocIDs form), (FeedbackForm.URLs form);
      try reflexivity.
    + specialize (H2 ltac:(discriminate)); discriminate.
    + specialize (H1 eq_refl); congruence.
Qed.

(** An answer cut off after its first member. *)
Lemma malformed_response_leaves_envelope_empty_witness :
  let cut := dq "{'status_code':'OK','status_msg':'All ima" in
  let treq := TagRequest.mk (Some ["http://x/img.jpg"]) None "" in
  let form := FeedbackForm.mk (Some ["12"]) None None None None None None in
  Client.Info (stub cut) net0
  = ((Some InfoResp.zero, Some SyntaxError), mkNet tt [infoCall])
  /\ Client.Tag (stub cut) treq net0
     = ((Some TagResp.zero, Some SyntaxError), mkNet tt [tagCall treq])
  /\ Client.Feedback (stub cut) form net0
     = ((Some FeedbackResp.zero, Some SyntaxError), mkNet tt [feedbackCall form]).
Proof.
  intros cut treq form.
  pose proof (malformed_response_leaves_envelope_empty
                unit (stub cut) net0 cut tt ltac:(vm_compute; reflexivity))
    as (Hi & Ht & _ & Hf).
  split; [|split].
  - apply Hi; reflexivity.
  - apply Ht; [cbn; lia | reflexivity].
  - apply (Hf form None);
      [split; [discriminate | intros H; exfalso; apply H; reflexivity]
      | reflexivity].
Defined.

(** ** How the response structs take the members of a response *)

Lemma find_none_iff {A : Type} (p : A -> bool) (l : list A) :
  List.find p l = None <-> forall x, In x l -> p x = false.
Proof.
  split.
  - intros H x Hx; exact (List.find_none p l H x Hx).
  - induction l as [|a l IH]; simpl; intros H; [reflexivity|].
    rewrite (H a (or_introl eq_refl)); apply IH; intros x Hx; apply H; right;
      assumption.
Qed.

Lemma lookup_field_none {T : Type} (fields : list (string * decoder T))
      (key : string) :
  ~ In (foldName key) (List.map (fun f => foldName (fst f)) fields) ->
  lookup_field fields key = None.
Proof.
  intros H; unfold lookup_field.
  assert (forall f, In f fields ->
                    String.eqb (foldName (fst f)) (foldName key) = false) as Hf.
  { intros f Hin; apply String.eqb_neq; intros E; apply H.
    rewrite <- E; apply (in_map (fun f => foldName (fst f))); assumption. }
  assert (List.find (fun f => String.eqb (fst f) key) fields = None) as ->.
  { apply find_none_iff; intros f Hin; apply String.eqb_neq; intros E.
    specialize (Hf f Hin); rewrite E, String.eqb_refl in Hf; discriminate. }
  assert (List.find (fun f => String.eqb (foldName (fst f)) (foldName key)) fields
          = None) as ->; [|reflexivity].
  apply find_none_iff; assumption.
Qed.

Lemma lookup_field_In {T : Type} (fields : list (string * decoder T))
      (key : string) (dec : decoder T) :
  lookup_field fields key = Some dec ->
  exists name, In (name, dec) fields /\ foldName name = foldName key.
Proof.
  unfold lookup_field.
  destruct (List.find (fun f => String.eqb (fst f) key) fields) as [[n1 d1]|] eqn:E1.
  - intros H; inversion H; subst; apply List.find_some in E1.
    destruct E1 as [Hin He]; cbn in He; apply String.eqb_eq in He; subst.
    exists key; split; [assumption | reflexivity].
  - destruct (List.find (fun f => String.eqb (foldName (fst f)) (foldName key))
                        fields) as [[n2 d2]|] eqn:E2; [|discriminate].
    intros H; inversion H; subst; apply List.find_some in E2.
    destruct E2 as [Hin He]; cbn in He; apply String.eqb_eq in He.
    exists n2; split; assumption.
Qed.

Lemma decode_members_skip {T : Type} (fields : list (string * decoder T))
      (ms1 ms2 : list (string * value)) (k : string) (v : value) :
  lookup_field fields k = None ->
  forall (t : T) (d : decodeState),
    decode_members fields (ms1 ++ (k, v) :: ms2) t d
    = decode_members fields (ms1 ++ ms2) t d.
Proof.
  intros Hk; induction ms1 as [|[k1 v1] ms1 IH]; intros t d; simpl.
  - rewrite Hk; reflexivity.
  - destruct (lookup_field fields k1) as [dec|]; [|apply IH].
    destruct (dec v1 t d) as [t' d'].
    destruct (aborted d'); [reflexivity | apply IH].
Qed.

(** One case per field of a struct, from membership in its list of
    fields. *)
Ltac each_field H :=
  repeat (destruct H as [H|H]; [inversion H; subst; clear H|]);
  try contradiction.

(** X6: a member of a response whose key is not that of a field of the
    envelope, not even up to case, is ignored wherever it stands in the
    object and whatever its value is: the envelope and the error are
    those of the response without it. *)
Theorem undeclared_members_are_ignored :
  forall (k : string) (v : value) (ms1 ms2 : list (string * value))
         (d : decodeState),
    (~ In (foldName k) ["STATUS_CODE"; "STATUS_MSG"; "RESULTS"] ->
     forall t,
       InfoResp.decode (JObject (ms1 ++ (k, v) :: ms2)) t d
       = InfoResp.decode (JObject (ms1 ++ ms2)) t d)
    /\
    (~ In (foldName k) ["STATUS_CODE"; "STATUS_MSG"; "META"; "RESULTS"] ->
     forall t,
       TagResp.decode (JObject (ms1 ++ (k, v) :: ms2)) t d
       = TagResp.decode (JObject (ms1 ++ ms2)) t d)
    /\
    (~ In (foldName k) ["STATUS_CODE"; "STATUS_MSG"; "RESULTS"] ->
     forall t,
       ColorResp.decode (JObject (ms1 ++ (k, v) :: ms2)) t d
       = ColorResp.decode (JObject (ms1 ++ ms2)) t d)
    /\
    (~ In (foldName k) ["STATUS_CODE"; "STATUS_MSG"] ->
     forall t,
       FeedbackResp.decode (JObject (ms1 ++ (k, v) :: ms2)) t d
       = FeedbackResp.decode (JObject (ms1 ++ ms2)) t d).
Proof.
  intros k v ms1 ms2 d; split; [|split; [|split]]; intros H t;
    apply decode_members_skip, lookup_field_none; exact H.
Qed.

Lemma undeclared_members_are_ignored_witness :
  let usage := ("usage", JObject [("calls", JNumber "17")]) in
  TagResp.decode (JObject [("status_code", JString "OK"); usage;
                           ("status_msg", JString "All OK")]) TagResp.zero fresh
  = TagResp.decode (JObject [("status_code", JString "OK");
                             ("status_msg", JString "All OK")]) TagResp.zero fresh.
Proof.
  intros usage.
  apply (proj1 (proj2 (undeclared_members_are_ignored
                  "usage" (JObject [("calls", JNumber "17")])
                  [("status_code", JString "OK")]
                  [("status_msg", JString "All OK")] fresh))).
  cbn; intros [H|[H|[H|[H|[]]]]]; discriminate.
Defined.

(** X7: the field [Results] of [InfoResp] carries no tag, and still the
    member the service sends under the key [results] is stored in it:
    any key that equals [Results] up to case is decoded into that
    field. *)
Theorem InfoResp_results_key_in_any_case :
  forall (k : string) (rv : value) (t : InfoResp.t) (d : decodeState),
    foldName k = "RESULTS" ->
    InfoResp.decode (JObject [(k, rv)]) t d
    = (InfoResp.set_Results
         (fst (InfoResp_Results.decode rv (InfoResp.Results t) d)) t,
       snd (InfoResp_Results.decode rv (InfoResp.Results t) d)).
Proof.
  intros k rv t d Hk.
  unfold InfoResp.decode, decode_struct, decode_members, lookup_field.
  cbn [List.find field fst snd].
  assert (String.eqb "status_code" k = false) as ->.
  { apply String.eqb_neq; intros <-; discriminate. }
  assert (String.eqb "status_msg" k = false) as ->.
  { apply String.eqb_neq; intros <-; discriminate. }
  rewrite Hk.
  destruct (String.eqb "Results" k); cbn;
    destruct (InfoResp_Results.decode rv (InfoResp.Results t) d) as [r d'];
    cbn; destruct (aborted d'); reflexivity.
Qed.

Lemma InfoResp_results_key_in_any_case_witness :
  InfoResp.decode
    (JObject [("results", JObject [("max_batch_size", JNumber "128")])])
    InfoResp.zero fresh
  = (InfoResp.mk "" "" (InfoResp_Results.set_MaxBatchSize 128%Z
                          InfoResp_Results.zero), fresh).
Proof.
  rewrite (InfoResp_results_key_in_any_case "results"
             (JObject [("max_batch_size", JNumber "128")]) InfoResp.zero fresh
             eq_refl).
  reflexivity.
Defined.

Lemma decode_members_null {T : Type} (fields : list (string * decoder T)) (t : T) :
  (forall name dec, In (name, dec) fields -> forall d, dec JNull t d = (t, d)) ->
  forall (ms : list (string * value)) (d : decodeState),
    (forall k v, In (k, v) ms -> v = JNull) ->
    decode_members fields ms t d = (t, d).
Proof.
  intros Hf ms; induction ms as [|[k v] ms IH]; intros d Hn; simpl;
    [reflexivity|].
  assert (v = JNull) as -> by (apply (Hn k); left; reflexivity).
  assert (decode_members fields ms t d = (t, d)) as Hr.
  { apply IH; intros k' v' H; apply (Hn k'); right; assumption. }
  destruct (lookup_field fields k) as [dec|] eqn:E; [|assumption].
  apply lookup_field_In in E; destruct E as [name [Hin _]].
  rewrite (Hf name dec Hin d).
  destruct (aborted d) eqn:Ha; [reflexivity | assumption].
Qed.

(** X8: a response whose members are all [null] fills in nothing and
    raises no error: each envelope stays as [new] made it, the nested
    structs, slices and document identifiers included. *)
Theorem null_members_change_nothing :
  forall (ms : list (string * value)) (d : decodeState),
    (forall k v, In (k, v) ms -> v = JNull) ->
    InfoResp.decode (JObject ms) InfoResp.zero d = (InfoResp.zero, d)
    /\ TagResp.decode (JObject ms) TagResp.zero d = (TagResp.zero, d)
    /\ ColorResp.decode (JObject ms) ColorResp.zero d = (ColorResp.zero, d)
    /\ FeedbackResp.decode (JObject ms) FeedbackResp.zero d = (FeedbackResp.zero, d).
Proof.
  intros ms d Hn; split; [|split; [|split]];
    apply decode_members_null; try assumption;
    intros name dec H d'; cbn in H; each_field H; reflexivity.
Qed.

Lemma null_members_change_nothing_witness :
  Unmarshal TagResp.decode
            (dq "{'status_code':null,'meta':null,'results':null,'usage':null}")
            TagResp.zero
  = (TagResp.zero, None).
Proof.
  unfold Unmarshal.
  change (scan (dq "{'status_code':null,'meta':null,'results':null,'usage':null}"))
    with (Some (JObject [("status_code", JNull); ("meta", JNull);
                         ("results", JNull); ("usage", JNull)])).
  cbv iota beta.
  rewrite (proj1 (proj2 (null_members_change_nothing
             [("status_code", JNull); ("meta", JNull);
              ("results", JNull); ("usage", JNull)]
             {| savedError := None; aborted := None |}
             ltac:(intros k v H; cbn in H; each_field H; reflexivity)))).
  reflexivity.
Defined.

(** ** The integers of [InfoResp] *)

Lemma digits_value_acc (d : Decimal.uint) :
  forall a : positive,
    strconv.digits_value (N.pos a) (NilEmpty.string_of_uint d)
    = Some (N.pos (Pos.of_uint_acc d a)).
Proof.
  induction d; intros a; cbn [NilEmpty.string_of_uint strconv.digits_value
                              Pos.of_uint_acc];
    try reflexivity;
    match goal with
    | |- context [scanner.is_digit ?c] =>
      change (scanner.is_digit c) with true; cbv iota
    end;
    match goal with
    | |- strconv.digits_value ?x _ = Some (N.pos (Pos.of_uint_acc _ ?y)) =>
      replace x with (N.pos y)
        by (set (k := (N_of_ascii _ - 48)%N); vm_compute in k; subst k; lia)
    end; apply IHd.
Qed.

Lemma digits_value_numeral (d : Decimal.uint) :
  strconv.digits_value 0 (NilEmpty.string_of_uint d) = Some (Pos.of_uint d).
Proof.
  induction d; cbn [NilEmpty.string_of_uint strconv.digits_value Pos.of_uint];
    try reflexivity;
    match goal with
    | |- context [scanner.is_digit ?c] =>
      change (scanner.is_digit c) with true; cbv iota
    end;
    try (apply IHd);
    match goal with
    | |- strconv.digits_value ?x _ = Some (N.pos (Pos.of_uint_acc _ ?y)) =>
      change x with (N.pos y)
    end; apply digits_value_acc.
Qed.

(** [ParseInt] on the decimal form of an integer: the integer when it
    fits in 64 bits, a failure otherwise. *)
Lemma ParseInt_decimal (z : Z) :
  strconv.ParseInt (big.String_ z)
  = if (Z.leb (- 2 ^ 63) z && Z.ltb z (2 ^ 63))%bool then Some z else None.
Proof.
  unfold big.String_, strconv.ParseInt.
  destruct z as [|p|p]; [reflexivity| |].
  - cbn [Z.to_int NilZero.string_of_int].
    pose proof (to_uint_leading_nonzero p) as L.
    pose proof (digits_value_numeral (Pos.to_uint p)) as V.
    rewrite DecimalPos.Unsigned.of_to in V.
    destruct (Pos.to_uint p) eqn:E; try contradiction;
      cbn [NilZero.string_of_uint NilEmpty.string_of_uint] in *;
      rewrite V; reflexivity.
  - cbn [Z.to_int NilZero.string_of_int].
    pose proof (to_uint_leading_nonzero p) as L.
    pose proof (digits_value_numeral (Pos.to_uint p)) as V.
    rewrite DecimalPos.Unsigned.of_to in V.
    destruct (Pos.to_uint p) eqn:E; try contradiction;
      cbn [NilZero.string_of_uint NilEmpty.string_of_uint] in *;
      rewrite V; reflexivity.
Qed.

Section IntFields.
#[local] Arguments strconv.ParseInt : simpl never.
#[local] Arguments big.String_ : simpl never.

(** X9: each of the nine integer limits of [InfoResp.Results] takes
    every integer from -2^63 to 2^63 - 1 exactly as it is written in
    decimal; an integer outside that range is not stored (the field
    keeps its zero) and is recorded as an [UnmarshalTypeError] that
    quotes the literal and names the type [int]. *)
Theorem int_fields_hold_64_bits :
  forall (name : string) (get : InfoResp_Results.t -> Z),
    In (name, get)
       [("max_image_size", InfoResp_Results.MaxImageSize);
        ("max_video_size", InfoResp_Results.MaxVideoSize);
        ("max_image_bytes", InfoResp_Results.MaxImageBytes);
        ("max_video_bytes", InfoResp_Results.MaxVideoBytes);
        ("max_video_duration", InfoResp_Results.MaxVideoDuration);
        ("max_video_batch_size", InfoResp_Results.MaxVideoBatchSize);
        ("min_video_size", InfoResp_Results.MinVideoSize);
        ("min_image_size", InfoResp_Results.MinImageSize);
        ("max_batch_size", InfoResp_Results.MaxBatchSize)] ->
    forall z : Z,
      let r := InfoResp_Results.decode (JObject [(name, JNumber (big.String_ z))])
                                       InfoResp_Results.zero fresh in
      ((- 2 ^ 63 <= z < 2 ^ 63)%Z -> get (fst r) = z /\ snd r = fresh)
      /\
      ((z < - 2 ^ 63 \/ 2 ^ 63 <= z)%Z ->
       fst r = InfoResp_Results.zero
       /\ snd r = saveError (UnmarshalTypeError ("number " ++ big.String_ z) "int")
                            fresh).
Proof.
  intros name get H z r; subst r.
  pose proof (ParseInt_decimal z) as P.
  split; intros Hz.
  - assert ((Z.leb (- 2 ^ 63) z && Z.ltb z (2 ^ 63))%bool = true) as E.
    { apply andb_true_iff; split; [apply Z.leb_le | apply Z.ltb_lt]; lia. }
    rewrite E in P.
    cbn in H; each_field H; cbn; rewrite P; split; reflexivity.
  - assert ((Z.leb (- 2 ^ 63) z && Z.ltb z (2 ^ 63))%bool = false) as E.
    { apply andb_false_iff; destruct Hz; [left; apply Z.leb_gt | right; apply Z.ltb_ge];
        lia. }
    rewrite E in P.
    cbn in H; each_field H; cbn; rewrite P; split; reflexivity.
Qed.
End IntFields.

(** The least integer that fits and the least that does not. *)
Lemma int_fields_hold_64_bits_witness :
  let fits := InfoResp_Results.decode
                (JObject [("max_video_bytes", JNumber "-9223372036854775808")])
                InfoResp_Results.zero fresh in
  let over := InfoResp_Results.decode
                (JObject [("max_video_bytes", JNumber "9223372036854775808")])
                InfoResp_Results.zero fresh in
  (InfoResp_Results.MaxVideoBytes (fst fits) = (- 2 ^ 63)%Z /\ snd fits = fresh)
  /\
  (fst over = InfoResp_Results.zero
   /\ snd over
      = saveError (UnmarshalTypeError "number 9223372036854775808" "int") fresh).
Proof.
  intros fits over; split.
  - apply (proj1 (int_fields_hold_64_bits
                    "max_video_bytes" InfoResp_Results.MaxVideoBytes
                    ltac:(cbn; tauto) (- 2 ^ 63)%Z)).
    lia.
  - apply (proj2 (int_fields_hold_64_bits
                    "max_video_bytes" InfoResp_Results.MaxVideoBytes
                    ltac:(cbn; tauto) (2 ^ 63)%Z)).
    lia.
Defined.

Section ScanInfo.
#[local] Arguments parse_value : simpl never.
#[local] Arguments parse_members : simpl never.
#[local] Arguments parse_elems : simpl never.

Lemma scan_infoResponse (d : Decimal.uint) :
  leading_nonzero d ->
  scan (infoResponse (NilEmpty.string_of_uint d))
  = Some (infoResponseValue (NilEmpty.string_of_uint d)).
Proof.
  intros Hd; unfold scan.
  assert (exists k, 2 * String.length (infoResponse (NilEmpty.string_of_uint d)) + 2
                    = 14 + k) as [k ->].
  { eexists (2 * String.length (infoResponse (NilEmpty.string_of_uint d)) + 2 - 14).
    unfold infoResponse; rewrite length_append; simpl String.length; lia. }
  unfold infoResponse.
  cbn [Nat.add dq Ascii.eqb Bool.eqb append].
  repeat scan_step.
  reflexivity.
Qed.
End ScanInfo.

Section DecodeInfo.
#[local] Arguments strconv.ParseInt : simpl never.
#[local] Arguments big.String_ : simpl never.

Lemma Unmarshal_infoResponse (p : positive) :
  Unmarshal InfoResp.decode (infoResponse (big.String_ (Z.pos p))) InfoResp.zero
  = if Z.ltb (Z.pos p) (2 ^ 63) then (infoResult (Z.pos p), None)
    else (infoResult 0,
          Some (UnmarshalTypeError ("number " ++ big.String_ (Z.pos p)) "int")).
Proof.
  unfold Unmarshal.
  rewrite String_numeral at 1.
  rewrite scan_infoResponse by apply to_uint_leading_nonzero.
  rewrite <- String_numeral.
  pose proof (ParseInt_decimal (Z.pos p)) as P.
  change (Z.leb (- 2 ^ 63) (Z.pos p)) with true in P; cbn [andb] in P.
  destruct (Z.ltb (Z.pos p) (2 ^ 63)); cbn; rewrite P; reflexivity.
Qed.
End DecodeInfo.

(** X10: when the service answers /info/ with a [max_image_size] of
    2^63 or more, [Info] returns an [UnmarshalTypeError] that quotes the
    number, with an envelope in which [MaxImageSize] is still zero and
    the members that follow it in the text are filled in all the same;
    below 2^63 the number is stored exactly and the error is nil. *)
Theorem Info_size_beyond_int_is_reported :
  forall (W : Type) (client : Client.t W) (n : Net W) (w : W) (p : positive),
    Client.transport client infoCall (world n)
    = ((infoResponse (big.String_ (Z.pos p)), None), w) ->
    ((Z.pos p < 2 ^ 63)%Z ->
     Client.Info client n
     = ((Some (infoResult (Z.pos p)), None), mkNet w (calls n ++ [infoCall])))
    /\
    ((2 ^ 63 <= Z.pos p)%Z ->
     Client.Info client n
     = ((Some (infoResult 0),
         Some (UnmarshalTypeError ("number " ++ big.String_ (Z.pos p)) "int")),
        mkNet w (calls n ++ [infoCall]))).
Proof.
  intros W client n w p H; rewrite Info_run, H, Unmarshal_infoResponse.
  split; intros Hp.
  - apply Z.ltb_lt in Hp; rewrite Hp; reflexivity.
  - apply Z.ltb_ge in Hp; rewrite Hp; reflexivity.
Qed.

Lemma Info_size_beyond_int_is_reported_witness :
  Client.Info (stub (infoResponse "9223372036854775807")) net0
  = ((Some (infoResult (2 ^ 63 - 1)), None), mkNet tt [infoCall])
  /\
  Client.Info (stub (infoResponse "9223372036854775808")) net0
  = ((Some (infoResult 0),
      Some (UnmarshalTypeError "number 9223372036854775808" "int")),
     mkNet tt [infoCall]).
Proof.
  split.
  - apply (proj1 (Info_size_beyond_int_is_reported
                    unit (stub (infoResponse "9223372036854775807")) net0 tt
                    9223372036854775807%positive eq_refl)).
    reflexivity.
  - apply (proj2 (Info_size_beyond_int_is_reported
                    unit (stub (infoResponse "9223372036854775808")) net0 tt
                    9223372036854775808%positive eq_refl)).
    discriminate.
Defined.

(** ** The results of [TagResp] and [ColorResp] *)








Section Results.
#[local] Arguments decode_elems : simpl never.
#[local] Arguments decode_members : simpl never.


End Results.


(** ** What is sent *)



Lemma omitempty_strings_keys (name : string) (s : slice string) (k : string) :
  In k (List.map fst (omitempty_strings name s)) -> k = name /\ len s <> 0.
Proof.
  destruct s as [[|x l]|]; cbn; try tauto.
  intros [H|[]]; subst; split; [reflexivity | discriminate].
Qed.



Lemma omitempty_strings_In (name : string) (s : slice string) (k : string)
      (v : value) :
  In (k, v) (omitempty_strings name s)
  <-> k = name /\ len s <> 0 /\ v = encode_strings s.
Proof.
  destruct s as [[|x l]|]; cbn; split;
    try (intros []; fail); try (intros (_ & H & _); congruence).
  - intros [H|[]]; inversion H; subst; repeat split; discriminate.
  - intros (-> & _ & ->); left; reflexivity.
Qed.

Lemma NoDup_keys_app (a b : list (string * value)) :
  NoDup (List.map fst a) -> NoDup (List.map fst b) ->
  (forall k, In k (List.map fst a) -> In k (List.map fst b) -> False) ->
  NoDup (List.map fst (a ++ b)).
Proof.
  intros Ha Hb Hab; rewrite map_app.
  induction (List.map fst a) as [|x l IH]; simpl; [assumption|].
  inversion Ha; subst; constructor.
  - intros H; apply in_app_or in H; destruct H as [H|H]; [contradiction|].
    apply (Hab x); [left; reflexivity | assumption].
  - apply IH; [assumption|]; intros k Hk; apply Hab; right; assumption.
Qed.

Lemma NoDup_omitempty_strings (name : string) (s : slice string) :
  NoDup (List.map fst (omitempty_strings name s)).
Proof.
  destruct s as [[|x l]|]; cbn; repeat constructor; intros [].
Qed.

(** X15: the members of the body of a [FeedbackForm] are exactly its
    fields of length one or more, each under its tag name with the
    array of its strings in their order, and no key occurs twice. *)
Theorem FeedbackForm_members_are_the_nonempty_fields :
  forall (r : FeedbackForm.t) (k : string) (v : value),
    (In (k, v) (members (toJSON (BodyFeedback r)))
     <-> exists s,
        In (k, s) [("docids", FeedbackForm.DocIDs r);
                   ("url", FeedbackForm.URLs r);
                   ("add_tags", FeedbackForm.AddTags r);
                   ("remove_tags", FeedbackForm.RemoveTags r);
                   ("dissimilar_docids", FeedbackForm.DissimilarDocIDs r);
                   ("similar_docids", FeedbackForm.SimilarDocIDs r);
                   ("search_click", FeedbackForm.SearchClick r)]
        /\ len s <> 0 /\ v = encode_strings s)
    /\ NoDup (keys (toJSON (BodyFeedback r))).
Proof.
  intros r k v; split; [split|].
  - intros H; cbn [toJSON FeedbackForm.encode members] in H.
    repeat (apply in_app_or in H; destruct H as [H|H]);
      apply omitempty_strings_In in H; destruct H as (-> & L & ->);
      eexists; (split; [|split; [exact L | reflexivity]]); cbn; tauto.
  - intros (s & H & L & ->); cbn [toJSON FeedbackForm.encode members].
    cbn in H.
    repeat (destruct H as [H|H];
            [inversion H; subst; clear H;
             repeat (apply in_or_app; first
                       [ left; apply omitempty_strings_In; repeat split; assumption
                       | right ]);
             apply omitempty_strings_In; repeat split; assumption|]).
    contradiction.
  - unfold keys; cbn [toJSON FeedbackForm.encode members].
    repeat (apply NoDup_keys_app;
            [apply NoDup_omitempty_strings| |
             intros k' H1 H2; apply omitempty_strings_keys in H1;
             destruct H1 as [-> _]; rewrite ?map_app in H2;
             repeat (apply in_app_or in H2; destruct H2 as [H2|H2]);
             apply omitempty_strings_keys in H2; destruct H2 as [E _];
             discriminate E]).
    apply NoDup_omitempty_strings.
Qed.

(** ** The text of a body

    What [json.Marshal] writes for a request, [json.Unmarshal] reads
    back: strings first, then the values built from them. *)

Lemma lex_string_copy_irrelevant (b : bool) (s : string) :
  lex_string 0 b s = lex_string 0 true s.
Proof. destruct s; reflexivity. Qed.

Lemma escape_from_copy_irrelevant (b : bool) (s : string) :
  escape_from 0 b s = escape_from 0 true s.
Proof. destruct s; reflexivity. Qed.

(** An ASCII character, however it is escaped, is read back as
    itself. *)
Lemma lex_escape_ascii (c : ascii) (x : string) :
  N.ltb (N_of_ascii c) 0x80 = true ->
  lex_string 0 true (escape_ascii c ++ x)
  = prepend (String c EmptyString) (lex_string 0 true x).
Proof.
  destruct c as [b0 b1 b2 b3 b4 b5 b6 b7].
  destruct b7; [destruct b0, b1, b2, b3, b4, b5, b6; discriminate|].
  intros _.
  destruct b0, b1, b2, b3, b4, b5, b6;
    cbn; rewrite ?lex_string_copy_irrelevant; reflexivity.
Qed.

(** A well-formed sequence of two to four bytes: the bytes after the
    first are there, and the rune does not depend on what follows
    them. *)
Lemma DecodeRune_multibyte (c : ascii) (t : string) (r : N) (size : nat) :
  N.ltb (N_of_ascii c) 0x80 = false ->
  utf8.DecodeRune (String c t) = (r, size) -> size <> 1 ->
  exists p t',
    t = p ++ t' /\ S (String.length p) = size
    /\ forall y, utf8.DecodeRune (String c (p ++ y)) = (r, size).
Proof.
  intros Hc H Hs; unfold utf8.DecodeRune in H; rewrite Hc in H.
  destruct t as [|c1 t1]; [inversion H; subst; congruence|].
  destruct (utf8.between 194 223 c) eqn:B2.
  { destruct (utf8.cont c1) eqn:C1; [|inversion H; subst; congruence].
    inversion H; subst.
    exists (String c1 ""), t1; repeat split.
    intros y; unfold utf8.DecodeRune; cbn [append]; rewrite Hc, B2, C1.
    reflexivity. }
  cbv zeta in H.
  match type of H with
  | (if ?b then _ else _) = _ => destruct b eqn:B3
  end; [inversion H; subst; congruence|].
  destruct t1 as [|c2 t2]; [inversion H; subst; congruence|].
  destruct (negb (utf8.cont c2)) eqn:C2; [inversion H; subst; congruence|].
  destruct (N.ltb (N_of_ascii c) 240) eqn:L3.
  { inversion H; subst.
    exists (String c1 (String c2 "")), t2; repeat split.
    intros y; unfold utf8.DecodeRune; cbn [append]; rewrite Hc, B2.
    cbv zeta; rewrite B3, C2, L3; reflexivity. }
  destruct t2 as [|c3 t3]; [inversion H; subst; congruence|].
  destruct (utf8.cont c3) eqn:C3; [|inversion H; subst; congruence].
  inversion H; subst.
  exists (String c1 (String c2 (String c3 ""))), t3; repeat split.
  intros y; unfold utf8.DecodeRune; cbn [append]; rewrite Hc, B2.
  cbv zeta; rewrite B3, C2, L3, C3; reflexivity.
Qed.

Lemma between_spec (lo hi : N) (c : ascii) :
  utf8.between lo hi c = true <-> (lo <= N_of_ascii c <= hi)%N.
Proof.
  unfold utf8.between; rewrite andb_true_iff, !N.leb_le; tauto.
Qed.

(** Quotient and remainder by a positive constant, as linear facts. *)
Ltac divmod b m :=
  let Hd := fresh in let Hm := fresh in
  pose proof (N.div_mod b m ltac:(discriminate)) as Hd;
  pose proof (N.mod_lt b m ltac:(discriminate)) as Hm;
  generalize dependent (N.modulo b m); generalize dependent (N.div b m); intros.

Lemma three_bytes (b0 b1 b2 r : N) :
  (224 <= b0 < 240)%N -> (128 <= b1 <= 191)%N -> (128 <= b2 <= 191)%N ->
  ((b0 mod 16 * 64 + b1 mod 64) * 64 + b2 mod 64 = r)%N ->
  (r = 8232 \/ r = 8233)%N ->
  b0 = 226%N /\ b1 = 128%N /\ b2 = (r - 8064)%N.
Proof.
  intros H0 H1 H2 E Hr.
  divmod b0 16%N. divmod b1 64%N. divmod b2 64%N. lia.
Qed.

Lemma two_bytes (b0 b1 : N) :
  ((b0 mod 32) * 64 + b1 mod 64 < 2048)%N.
Proof. divmod b0 32%N. divmod b1 64%N. lia. Qed.

Lemma four_bytes (b0 b1 b2 b3 : N) :
  (240 <= b0 <= 244)%N -> ((if N.eqb b0 240 then 144 else 128) <= b1 <= 191)%N ->
  (65536 <= ((b0 mod 8 * 64 + b1 mod 64) * 64 + b2 mod 64) * 64 + b3 mod 64)%N.
Proof.
  intros H0 H1.
  destruct (N.eqb_spec b0 240) as [E|E].
  - divmod b0 8%N. divmod b1 64%N. divmod b2 64%N. divmod b3 64%N. lia.
  - divmod b0 8%N. divmod b1 64%N. divmod b2 64%N. divmod b3 64%N. lia.
Qed.

Lemma ascii_of_byte (c : ascii) (n : N) : N_of_ascii c = n -> c = ascii_of_N n.
Proof. intros <-; symmetry; apply ascii_N_embedding. Qed.

(** U+2028 and U+2029, which [json.Marshal] escapes, are the byte
    sequences E2 80 A8 and E2 80 A9. *)
Lemma DecodeRune_line_separator (c : ascii) (t : string) (r : N) (size : nat) :
  N.ltb (N_of_ascii c) 0x80 = false ->
  utf8.DecodeRune (String c t) = (r, size) -> size <> 1 ->
  r = 0x2028%N \/ r = 0x2029%N ->
  exists t',
    c = "226"%char
    /\ t = String "128"%char (String (ascii_of_N (r - 8064)) t')
    /\ size = 3.
Proof.
  intros Hc H Hs Hr; unfold utf8.DecodeRune in H; rewrite Hc in H.
  unfold utf8.low6 in H.
  destruct t as [|c1 t1]; [inversion H; subst; congruence|].
  destruct (utf8.between 194 223 c) eqn:B2.
  { destruct (utf8.cont c1) eqn:C1; [|inversion H; subst; congruence].
    inversion H; subst.
    pose proof (two_bytes (N_of_ascii c) (N_of_ascii c1)) as F.
    generalize dependent (N_of_ascii c mod 32 * 64 + N_of_ascii c1 mod 64)%N.
    intros; lia. }
  cbv zeta in H.
  match type of H with
  | (if ?b then _ else _) = _ => destruct b eqn:B3
  end; [inversion H; subst; congruence|].
  apply orb_false_iff in B3; destruct B3 as [B3 B4].
  apply negb_false_iff in B3, B4. apply between_spec in B3, B4.
  destruct t1 as [|c2 t2]; [inversion H; subst; congruence|].
  destruct (negb (utf8.cont c2)) eqn:C2; [inversion H; subst; congruence|].
  apply negb_false_iff in C2; apply between_spec in C2.
  destruct (N.ltb (N_of_ascii c) 240) eqn:L3.
  - apply N.ltb_lt in L3.
    assert (128 <= N_of_ascii c1 <= 191)%N as B5.
    { clear - B4.
      destruct (N.eqb (N_of_ascii c) 224), (N.eqb (N_of_ascii c) 240),
        (N.eqb (N_of_ascii c) 237), (N.eqb (N_of_ascii c) 244);
        cbv iota in B4; lia. }
    injection H as E Es.
    assert (224 <= N_of_ascii c < 240)%N as B6 by (clear - B3 L3; lia).
    destruct (three_bytes _ _ _ _ B6 B5 C2 E Hr) as (E0 & E1 & E2).
    exists t2; repeat split.
    + apply ascii_of_byte in E0; exact E0.
    + apply ascii_of_byte in E1, E2; subst c1 c2; reflexivity.
    + symmetry; exact Es.
  - apply N.ltb_ge in L3.
    destruct t2 as [|c3 t3]; [inversion H; subst; congruence|].
    destruct (utf8.cont c3) eqn:C3; [|inversion H; subst; congruence].
    injection H as E Es.
    assert ((if N.eqb (N_of_ascii c) 240 then 144 else 128) <= N_of_ascii c1 <= 191)%N
      as B5.
    { clear - B4.
      destruct (N.eqb_spec (N_of_ascii c) 224), (N.eqb_spec (N_of_ascii c) 240),
        (N.eqb_spec (N_of_ascii c) 237), (N.eqb_spec (N_of_ascii c) 244);
        cbv iota in B4; lia. }
    assert (240 <= N_of_ascii c <= 244)%N as B6 by (clear - B3 L3; lia).
    pose proof (four_bytes (N_of_ascii c) (N_of_ascii c1) (N_of_ascii c2)
                           (N_of_ascii c3) B6 B5) as F.
    rewrite E in F; clear - F Hr; lia.
Qed.

Lemma append_assoc (a b c : string) : (a ++ b) ++ c = a ++ (b ++ c).
Proof. induction a; simpl; congruence. Qed.

Lemma escape_from_O (c : ascii) (t : string) :
  escape_from 0 true (String c t)
  = if N.ltb (N_of_ascii c) 0x80 then escape_ascii c ++ escape_from 0 true t
    else
      let (r, size) := utf8.DecodeRune (String c t) in
      if (N.eqb r utf8.RuneError && Nat.eqb size 1)%bool
      then String bslash "ufffd" ++ escape_from 0 true t
      else if (N.eqb r 0x2028 || N.eqb r 0x2029)%bool
      then String bslash "u202" ++ String (hex (N.modulo r 16))
             (escape_from (size - 1) false t)
      else String c (escape_from (size - 1) true t).
Proof. reflexivity. Qed.

Lemma lex_string_O (c : ascii) (t : string) :
  lex_string 0 true (String c t)
  = if Ascii.eqb c dquote then Some (EmptyString, t)
    else if Ascii.eqb c bslash then
      match unescape t with
      | Some (bytes, width) => prepend bytes (lex_string width false t)
      | None => None
      end
    else if N.ltb (N_of_ascii c) 0x20 then None
    else if N.ltb (N_of_ascii c) 0x80
    then prepend (String c EmptyString) (lex_string 0 true t)
    else
      let (_, size) := utf8.DecodeRune (String c t) in
      if Nat.eqb size 1
      then prepend (utf8.EncodeRune utf8.RuneError) (lex_string 0 true t)
      else prepend (String c EmptyString) (lex_string (size - 1) true t).
Proof. reflexivity. Qed.

Lemma escape_from_S (k : nat) (copy : bool) (c : ascii) (t : string) :
  escape_from (S k) copy (String c t)
  = if copy then String c (escape_from k copy t) else escape_from k copy t.
Proof. reflexivity. Qed.

Lemma lex_string_S (k : nat) (copy : bool) (c : ascii) (t : string) :
  lex_string (S k) copy (String c t)
  = if copy then prepend (String c EmptyString) (lex_string k copy t)
    else lex_string k copy t.
Proof. reflexivity. Qed.

Lemma escape_from_skip (p t : string) :
  escape_from (String.length p) true (p ++ t) = p ++ escape_from 0 true t.
Proof.
  induction p as [|c p IH]; [reflexivity|].
  cbn [String.length append escape_from]; rewrite IH; reflexivity.
Qed.

Lemma high_byte_tests (c : ascii) :
  N.ltb (N_of_ascii c) 0x80 = false ->
  Ascii.eqb c dquote = false /\ Ascii.eqb c bslash = false
  /\ N.ltb (N_of_ascii c) 0x20 = false.
Proof.
  intros H; apply N.ltb_ge in H; repeat split.
  - apply Ascii.eqb_neq; intros ->; cbn in H; lia.
  - apply Ascii.eqb_neq; intros ->; cbn in H; lia.
  - apply N.ltb_ge; lia.
Qed.

Section Strings.
#[local] Arguments lex_string : simpl never.
#[local] Arguments escape_from : simpl never.

(** The body of a quoted string is read back as the string, when the
    string is valid UTF-8. *)
Lemma lex_escape_from (rest : string) :
  forall (s : string) (k : nat),
    valid_from k s = true ->
    lex_string k true (escape_from k true s ++ String dquote rest)
    = Some (s, rest).
Proof.
  induction s as [|c t IH]; intros k Hv.
  - destruct k; [reflexivity | discriminate].
  - destruct k as [|k]; cbn [valid_from] in Hv.
    2:{ change (escape_from (S k) true (String c t))
          with (String c (escape_from k true t)).
        cbn [append].
        change (lex_string (S k) true (String c ?x))
          with (prepend (String c "") (lex_string k true x)).
        rewrite (IH k Hv); reflexivity. }
    rewrite escape_from_O.
    destruct (N.ltb (N_of_ascii c) 0x80) eqn:Hc.
    { rewrite append_assoc, lex_escape_ascii, (IH 0 Hv) by assumption.
      reflexivity. }
    destruct (utf8.DecodeRune (String c t)) as [r size] eqn:D.
    destruct (Nat.eqb size 1) eqn:S1; [discriminate|].
    apply Nat.eqb_neq in S1.
    rewrite andb_false_r.
    destruct (N.eqb r 0x2028 || N.eqb r 0x2029)%bool eqn:LS.
    + assert (r = 0x2028%N \/ r = 0x2029%N) as Hr.
      { apply orb_true_iff in LS; destruct LS as [E|E]; apply N.eqb_eq in E; auto. }
      destruct (DecodeRune_line_separator c t r size Hc D S1 Hr)
        as (t' & -> & -> & ->).
      specialize (IH 2 Hv).
      rewrite !escape_from_S in IH; cbn [append] in IH.
      rewrite !lex_string_S in IH.
      destruct Hr as [-> | ->];
        cbn; rewrite lex_string_O; cbn; rewrite !lex_string_S; cbv iota;
        rewrite !escape_from_S, (lex_string_copy_irrelevant false),
          (escape_from_copy_irrelevant false);
        destruct (lex_string 0 true (escape_from 0 true t' ++ String dquote rest))
          as [[x y]|]; cbn in IH |- *; inversion IH; subst; reflexivity.
    + destruct (DecodeRune_multibyte c t r size Hc D S1) as (p & t' & E & L & P).
      cbn [append]; rewrite lex_string_O.
      destruct (high_byte_tests c Hc) as (-> & -> & ->); rewrite Hc.
      assert (utf8.DecodeRune
                (String c (escape_from (size - 1) true t ++ String dquote rest))
              = (r, size)) as ->.
      { subst t; replace (size - 1) with (String.length p) by lia.
        rewrite escape_from_skip, append_assoc; apply P. }
      apply Nat.eqb_neq in S1; rewrite S1.
      rewrite (IH (size - 1) Hv); reflexivity.
Qed.
End Strings.

Lemma render_JArray (l : list value) :
  render (JArray l) = "[" ++ render_elems l ++ "]".
Proof. reflexivity. Qed.

Lemma render_JObject (ms : list (string * value)) :
  render (JObject ms) = "{" ++ render_members ms ++ "}".
Proof. reflexivity. Qed.

Lemma render_members_cons (k : string) (v : value) (m : string * value)
      (ms : list (string * value)) :
  render_members ((k, v) :: m :: ms)
  = quote k ++ ":" ++ render v ++ "," ++ render_members (m :: ms).
Proof. reflexivity. Qed.

Lemma expect_here (c : ascii) (x : string) :
  scanner.is_space c = false -> expect c (String c x) = Some x.
Proof.
  intros H; unfold expect; cbn [scanner.skip_space]; rewrite H, Ascii.eqb_refl.
  reflexivity.
Qed.

Lemma expect_other (c c' : ascii) (x : string) :
  scanner.is_space c' = false -> Ascii.eqb c' c = false ->
  expect c (String c' x) = None.
Proof.
  intros H E; unfold expect; cbn [scanner.skip_space]; rewrite H, E.
  reflexivity.
Qed.

Section Reading.
#[local] Arguments parse_value : simpl never.
#[local] Arguments parse_members : simpl never.
#[local] Arguments parse_elems : simpl never.
#[local] Arguments lex_string : simpl never.
#[local] Arguments escape_from : simpl never.

Lemma parse_quote (s rest : string) (f : nat) (d : N) :
  ValidString s = true ->
  parse_value (S f) d (quote s ++ rest) = Some (JString s, rest).
Proof.
  intros Hs; rewrite parse_value_S; unfold value_at, quote.
  cbn [append scanner.skip_space scanner.is_space dquote].
  cbn [Ascii.eqb Bool.eqb].
  rewrite append_assoc; cbn [append].
  rewrite (lex_escape_from rest s 0 Hs); reflexivity.
Qed.

Lemma parse_null (rest : string) (f : nat) (d : N) :
  parse_value (S f) d ("null" ++ rest) = Some (JNull, rest).
Proof. reflexivity. Qed.

Lemma parse_strings (rest : string) :
  forall (l : list value),
    l <> [] -> forallb is_valid_string l = true ->
    forall (f : nat) (d : N),
      List.length l < f ->
      parse_elems f d (render_elems l ++ String "]" rest) = Some (l, rest).
Proof.
  induction l as [|x l IH]; intros Hne Hv f d Hf; [congruence|].
  cbn [forallb] in Hv; apply andb_true_iff in Hv; destruct Hv as [Hx Hl].
  destruct x as [| | |s| |]; try discriminate; cbn [is_valid_string] in Hx.
  destruct f as [|[|f]]; cbn [List.length] in Hf; try lia.
  rewrite parse_elems_S; unfold elems_at.
  cbn [render_elems render]; rewrite append_assoc.
  rewrite (parse_quote s _ f d Hx).
  destruct l as [|y l].
  - cbn [append].
    rewrite expect_other, expect_here by reflexivity; reflexivity.
  - cbn [append]. rewrite expect_here by reflexivity.
    rewrite IH; [reflexivity | discriminate | assumption | cbn [List.length] in *; lia].
Qed.

Lemma render_elems_starts (l : list value) (rest : string) :
  l <> [] -> forallb is_valid_string l = true ->
  exists x, render_elems l ++ rest = String dquote x.
Proof.
  destruct l as [|[| | |s| |] l]; intros Hne Hv; try congruence; try discriminate.
  cbn [render_elems render]; unfold quote; rewrite append_assoc; cbn [append].
  eauto.
Qed.

Lemma parse_flat (v : value) (rest : string) :
  flat_value v = true ->
  exists f0, forall (f : nat) (d : N),
      f0 <= f -> (d < maxNestingDepth)%N ->
      parse_value f d (render v ++ rest) = Some (v, rest).
Proof.
  destruct v as [| | |s|l|]; try discriminate; cbn [flat_value]; intros Hv.
  - exists 1; intros [|f] d Hf Hd; [lia | apply parse_null].
  - exists 1; intros [|f] d Hf Hd; [lia | apply parse_quote; assumption].
  - exists (List.length l + 2); intros [|f] d Hf Hd; [lia|].
    rewrite parse_value_S, render_JArray; unfold value_at.
    rewrite !append_assoc.
    cbn [append scanner.skip_space scanner.is_space Ascii.eqb Bool.eqb].
    assert (N.ltb maxNestingDepth (d + 1) = false) as ->
        by (apply N.ltb_ge; lia).
    destruct l as [|x l].
    + cbn [render_elems append]; rewrite expect_here by reflexivity; reflexivity.
    + destruct (render_elems_starts (x :: l) (String "]" rest) ltac:(discriminate) Hv)
        as [y Ey].
      rewrite Ey, expect_other by reflexivity; rewrite <- Ey.
      cbn [append]; rewrite parse_strings;
        [reflexivity | discriminate | assumption | lia].
Qed.

Lemma parse_flat_members (rest : string) :
  forall (ms : list (string * value)),
    ms <> [] -> forallb flat_member ms = true ->
    exists f0, forall (f : nat) (d : N),
        f0 <= f -> (d < maxNestingDepth)%N ->
        parse_members f d (render_members ms ++ String "}" rest) = Some (ms, rest).
Proof.
  induction ms as [|[k v] ms IH]; intros Hne Hv; [congruence|].
  cbn [forallb] in Hv; apply andb_true_iff in Hv; destruct Hv as [Hm Hms].
  apply andb_true_iff in Hm; cbn [fst snd] in Hm; destruct Hm as [Hk Hx].
  destruct ms as [|m ms].
  - destruct (parse_flat v (String "}" rest) Hx) as [fv Hfv].
    exists (S fv); intros [|f] d Hf Hd; [lia|].
    rewrite parse_members_S; unfold members_at.
    cbn [render_members]; unfold quote; rewrite !append_assoc; cbn [append].
    rewrite expect_here by reflexivity.
    rewrite append_assoc; cbn [append].
    rewrite (lex_escape_from _ k 0 Hk).
    rewrite expect_here by reflexivity.
    rewrite Hfv by (assumption || lia).
    rewrite expect_other, expect_here by reflexivity; reflexivity.
  - destruct (parse_flat v ("," ++ render_members (m :: ms) ++ String "}" rest) Hx)
      as [fv Hfv].
    destruct (IH ltac:(discriminate) Hms) as [fm Hfm].
    exists (S (Nat.max fv fm)); intros [|f] d Hf Hd; [lia|].
    rewrite parse_members_S; unfold members_at.
    rewrite render_members_cons; unfold quote; rewrite !append_assoc; cbn [append].
    rewrite expect_here by reflexivity.
    rewrite append_assoc; cbn [append].
    rewrite (lex_escape_from _ k 0 Hk).
    rewrite expect_here by reflexivity.
    rewrite ?append_assoc.
    rewrite Hfv by (assumption || lia).
    cbn [append]; rewrite expect_here by reflexivity.
    rewrite Hfm by (assumption || lia); reflexivity.
Qed.

Lemma scan_flat_object (ms : list (string * value)) :
  forallb flat_member ms = true ->
  scan (render (JObject ms)) = Some (JObject ms).
Proof.
  intros Hv.
  assert (exists f, parse_value f 0 (render (JObject ms)) = Some (JObject ms, ""))
    as [f Hf].
  { rewrite render_JObject.
    destruct ms as [|m ms]; [exists 1; reflexivity|].
    destruct (parse_flat_members "" (m :: ms) ltac:(discriminate) Hv) as [f0 Hf0].
    exists (S f0). rewrite parse_value_S; unfold value_at.
    cbn [append scanner.skip_space scanner.is_space Ascii.eqb Bool.eqb].
    change (N.ltb maxNestingDepth (0 + 1)) with false; cbv iota.
    assert (exists x, render_members (m :: ms) ++ "}" = String dquote x) as [x Ex].
    { destruct m as [k v]; cbn [render_members]; unfold quote.
      rewrite !append_assoc; cbn [append]; eauto. }
    rewrite Ex, expect_other by reflexivity; rewrite <- Ex.
    rewrite Hf0 by (reflexivity || lia); reflexivity. }
  apply (scan_fuel_independent f _ _ "" Hf); reflexivity.
Qed.
End Reading.

Lemma ValidString_strings (l : list string) :
  forallb is_valid_string (List.map JString l) = forallb ValidString l.
Proof. induction l as [|x l IH]; cbn; [reflexivity | rewrite IH; reflexivity]. Qed.

Lemma flat_encode_strings (s : slice string) :
  valid_slice s = true -> flat_value (encode_strings s) = true.
Proof.
  destruct s as [l|]; cbn; [|reflexivity].
  rewrite ValidString_strings; trivial.
Qed.

Lemma flat_omitempty_strings (name : string) (s : slice string) :
  ValidString name = true -> valid_slice s = true ->
  forallb flat_member (omitempty_strings name s) = true.
Proof.
  intros Hn Hs; unfold omitempty_strings.
  destruct (len s); [reflexivity|].
  cbn [forallb]; unfold flat_member; cbn [fst snd].
  rewrite Hn, flat_encode_strings by assumption; reflexivity.
Qed.

Lemma flat_omitempty_string (name s : string) :
  ValidString name = true -> ValidString s = true ->
  forallb flat_member (omitempty_string name s) = true.
Proof.
  intros Hn Hs; destruct s as [|c s]; [reflexivity|].
  cbn [omitempty_string forallb]; unfold flat_member; cbn [fst snd flat_value].
  rewrite Hn, Hs; reflexivity.
Qed.

Ltac split_valid H :=
  repeat (apply andb_true_iff in H;
          let H' := fresh "V" in destruct H as [H H']).

(** The text of a body denotes the JSON value of the body. *)
Lemma scan_Marshal (b : Body) :
  valid_body b = true -> scan (Marshal b) = Some (toJSON b).
Proof.
  destruct b as [|r|r|r]; intros H; unfold Marshal; cbn [toJSON];
    [reflexivity| | |];
    cbn [valid_body] in H; split_valid H;
    apply scan_flat_object; rewrite !forallb_app;
    repeat (apply andb_true_iff; split);
    try (apply flat_omitempty_strings; [reflexivity | assumption]);
    try (apply flat_omitempty_string; [reflexivity | assumption]);
    try reflexivity; apply flat_encode_strings; assumption.
Qed.

(** X16: the body of every request whose strings are valid UTF-8 is a
    well-formed JSON text, and the value it denotes is the object of the
    request: the same members in the same order, every string as it was
    given, whatever quotes, backslashes, control characters, angle
    brackets, ampersands or characters outside ASCII it holds. *)
Theorem serialized_body_is_the_encoded_object :
  forall b : Body,
    valid_body b = true ->
    scan (Marshal b) = Some (toJSON b).
Proof. exact scan_Marshal. Qed.

(** A form whose strings hold a quote, a backslash, a line feed, HTML
    characters and the two bytes of U+00E9. *)
Lemma serialized_body_is_the_encoded_object_witness :
  let form := FeedbackForm.mk
                None
                (Some [String "h" (String dquote (String bslash
                         (String "010" (String "195" (String "169" "<&>")))))])
                (Some ["cat"; ""]) None None None None in
  scan (Marshal (BodyFeedback form)) = Some (toJSON (BodyFeedback form)).
Proof.
  intros form.
  apply (serialized_body_is_the_encoded_object (BodyFeedback form)).
  vm_compute; reflexivity.
Defined.

(** X17: a [TagRequest] whose strings are valid UTF-8 survives the
    wire: decoding the text of its body into a fresh [TagRequest] gives
    the URLs, the local identifiers and the model back, in order and
    byte for byte, with a nil error; only an allocated [LocalIDs] of
    length zero, which is left out of the body, comes back as nil. *)
Theorem TagRequest_survives_the_wire :
  forall r : TagRequest.t,
    valid_body (BodyTag r) = true ->
    Unmarshal TagRequest.decode (Marshal (BodyTag r)) TagRequest.zero
    = (TagRequest.mk (TagRequest.URLs r)
                     (match len (TagRequest.LocalIDs r) with
                      | O => None
                      | S _ => TagRequest.LocalIDs r
                      end)
                     (TagRequest.Model r),
       None).
Proof.
  intros r H; unfold Unmarshal.
  rewrite (scan_Marshal (BodyTag r) H).
  cbn [toJSON]; rewrite TagRequest_decode_encode; reflexivity.
Qed.

Lemma TagRequest_survives_the_wire_witness :
  let r := TagRequest.mk
             (Some ["http://x/a b.jpg?q=<1>&r=2";
                    String "h" (String dquote (String "226" (String "128"
                      (String "168" (String "195" (String "169" ""))))))])
             (Some []) "general-v1.3" in
  Unmarshal TagRequest.decode (Marshal (BodyTag r)) TagRequest.zero
  = (TagRequest.mk (TagRequest.URLs r) None "general-v1.3", None).
Proof.
  intros r.
  apply (TagRequest_survives_the_wire r).
  vm_compute; reflexivity.
Defined.

(** ** Whole responses *)

(** X18: when the bytes returned are a well-formed JSON text that is
    not an object (an array, a string, a number, a boolean), every
    method returns an [UnmarshalTypeError] that names the kind of the
    value and the type of its envelope, with a fresh envelope; when the
    text is [null] it returns a fresh envelope and a nil error. *)
Theorem response_that_is_no_object :
  forall (W : Type) (client : Client.t W) (n : Net W) (res : string) (w : W)
         (j : value),
    scan res = Some j ->
    is_object_or_null j = false \/ j = JNull ->
    let err ty := if is_object_or_null j then None
                  else Some (UnmarshalTypeError (describe j) ty) in
    (Client.transport client infoCall (world n) = ((res, None), w) ->
     Client.Info client n =
     ((Some InfoResp.zero, err "clarifai.InfoResp"),
      mkNet w (calls n ++ [infoCall])))
    /\
    (forall req, 1 <= len (TagRequest.URLs req) ->
       Client.transport client (tagCall req) (world n) = ((res, None), w) ->
       Client.Tag client req n =
       ((Some TagResp.zero, err "clarifai.TagResp"),
        mkNet w (calls n ++ [tagCall req])))
    /\
    (forall req, 1 <= len (ColorRequest.URLs req) ->
       Client.transport client (colorCall req) (world n) = ((res, None), w) ->
       Client.Color client req n =
       ((Some ColorResp.zero, err "clarifai.ColorResp"),
        mkNet w (calls n ++ [colorCall req])))
    /\
    (forall form e,
       (FeedbackForm.DocIDs form = None <-> FeedbackForm.URLs form <> None) ->
       Client.transport client (feedbackCall form) (world n) = ((res, e), w) ->
       Client.Feedback client form n =
       ((Some FeedbackResp.zero, err "clarifai.FeedbackResp"),
        mkNet w (calls n ++ [feedbackCall form]))).
Proof.
  intros W client n res w j Hs Hj err.
  assert (forall (T : Type) (ty : string) (fields : list (string * decoder T))
                 (zero : T),
             Unmarshal (decode_struct ty fields) res zero = (zero, err ty)) as U.
  { intros T ty fields zero; unfold Unmarshal, err; rewrite Hs.
    destruct Hj as [Hj | ->]; [|reflexivity].
    destruct j; try discriminate; reflexivity. }
  split; [|split; [|split]].
  - intros H; rewrite Info_run, H; unfold InfoResp.decode; rewrite U; reflexivity.
  - intros req Hlen H; rewrite Tag_run, H; unfold TagResp.decode; rewrite U.
    destruct (len (TagRequest.URLs req)); [lia | reflexivity].
  - intros req Hlen H; rewrite Color_run, H; unfold ColorResp.decode; rewrite U.
    destruct (len (ColorRequest.URLs req)); [lia | reflexivity].
  - intros form e [H1 H2] H.
    rewrite Feedback_run, H; unfold FeedbackResp.decode; rewrite U.
    destruct (FeedbackForm.DocIDs form), (FeedbackForm.URLs form);
      try reflexivity.
    + specialize (H2 ltac:(discriminate)); discriminate.
    + specialize (H1 eq_refl); congruence.
Qed.

(** An answer that is a list of results without its envelope, and an
    answer that is [null]. *)
Lemma response_that_is_no_object_witness :
  let treq := TagRequest.mk (Some ["http://x/img.jpg"]) None "" in
  Client.Tag (stub (dq "[{'docid':1}]")) treq net0
  = ((Some TagResp.zero, Some (UnmarshalTypeError "array" "clarifai.TagResp")),
     mkNet tt [tagCall treq])
  /\
  Client.Info (stub "null") net0
  = ((Some InfoResp.zero, None), mkNet tt [infoCall]).
Proof.
  intros treq; split.
  - apply (proj1 (proj2 (response_that_is_no_object
                           unit (stub (dq "[{'docid':1}]")) net0
                           (dq "[{'docid':1}]") tt
                           (JArray [JObject [("docid", JNumber "1")]])
                           ltac:(vm_compute; reflexivity)
                           ltac:(left; reflexivity))) treq);
      [cbn; lia | reflexivity].
  - apply (proj1 (response_that_is_no_object
                    unit (stub "null") net0 "null" tt JNull
                    ltac:(vm_compute; reflexivity) ltac:(right; reflexivity)));
      reflexivity.
Defined.

Lemma scan_statusResponse (code msg : string) :
  ValidString code = true -> ValidString msg = true ->
  scan (statusResponse code msg)
  = Some (JObject [("status_code", JString code); ("status_msg", JString msg)]).
Proof.
  intros Hc Hm; apply scan_flat_object.
  cbn [forallb]; unfold flat_member; cbn [fst snd flat_value].
  rewrite Hc, Hm; reflexivity.
Qed.

(** X19: whatever status code and status message the service sends,
    written the way [json.Marshal] writes strings (quotes, backslashes,
    control and HTML characters escaped), every method returns them
    byte for byte in the envelope, with a nil error and nothing else
    filled in. *)
Theorem status_strings_arrive_unchanged :
  forall (W : Type) (client : Client.t W) (n : Net W) (w : W) (code msg : string),
    ValidString code = true -> ValidString msg = true ->
    let res := statusResponse code msg in
    (Client.transport client infoCall (world n) = ((res, None), w) ->
     Client.Info client n =
     ((Some (InfoResp.mk code msg InfoResp_Results.zero), None),
      mkNet w (calls n ++ [infoCall])))
    /\
    (forall req, 1 <= len (TagRequest.URLs req) ->
       Client.transport client (tagCall req) (world n) = ((res, None), w) ->
       Client.Tag client req n =
       ((Some (TagResp.mk code msg TagResp_Meta.zero None), None),
        mkNet w (calls n ++ [tagCall req])))
    /\
    (forall req, 1 <= len (ColorRequest.URLs req) ->
       Client.transport client (colorCall req) (world n) = ((res, None), w) ->
       Client.Color client req n =
       ((Some (ColorResp.mk code msg None), None),
        mkNet w (calls n ++ [colorCall req])))
    /\
    (forall form e,
       (FeedbackForm.DocIDs form = None <-> FeedbackForm.URLs form <> None) ->
       Client.transport client (feedbackCall form) (world n) = ((res, e), w) ->
       Client.Feedback client form n =
       ((Some (FeedbackResp.mk code msg), None),
        mkNet w (calls n ++ [feedbackCall form]))).
Proof.
  intros W client n w code msg Hc Hm res.
  pose proof (scan_statusResponse code msg Hc Hm) as Hs; fold res in Hs.
  split; [|split; [|split]].
  - intros H; rewrite Info_run, H; unfold Unmarshal; rewrite Hs; reflexivity.
  - intros req Hlen H; rewrite Tag_run, H; unfold Unmarshal; rewrite Hs.
    destruct (len (TagRequest.URLs req)); [lia | reflexivity].
  - intros req Hlen H; rewrite Color_run, H; unfold Unmarshal; rewrite Hs.
    destruct (len (ColorRequest.URLs req)); [lia | reflexivity].
  - intros form e [H1 H2] H.
    rewrite Feedback_run, H; unfold Unmarshal; rewrite Hs.
    destruct (FeedbackForm.DocIDs form), (FeedbackForm.URLs form);
      try reflexivity.
    + specialize (H2 ltac:(discriminate)); discriminate.
    + specialize (H1 eq_refl); congruence.
Qed.

(** A message with quotes, a line feed and an ampersand. *)
Lemma status_strings_arrive_unchanged_witness :
  let msg := String dquote (String "a" (String dquote (String "010" "b & c"))) in
  let form := FeedbackForm.mk (Some ["12"]) None None None None None None in
  statusResponse "OK" msg
  = String "{" (dq "'status_code':'OK','status_msg':'")
    ++ String bslash (String dquote (String "a" (String bslash (String dquote
         (String bslash "nb ")))))
    ++ String bslash "u0026 c" ++ dq "'}"
  /\
  Client.Feedback (stub (statusResponse "OK" msg)) form net0
  = ((Some (FeedbackResp.mk "OK" msg), None), mkNet tt [feedbackCall form]).
Proof.
  intros msg form; split; [vm_compute; reflexivity|].
  apply (proj2 (proj2 (proj2 (status_strings_arrive_unchanged
                                unit (stub (statusResponse "OK" msg)) net0 tt
                                "OK" msg eq_refl eq_refl))) form None);
    [split; [discriminate | intros H; exfalso; apply H; reflexivity]
    | reflexivity].
Defined.

(** ** Limits that are not written as integers *)

Lemma digits_value_stops (a b : string) (c : ascii) :
  scanner.is_digit c = false ->
  forall acc, strconv.digits_value acc (a ++ String c b) = None.
Proof.
  intros Hc; induction a as [|x a IH]; intros acc; cbn [append strconv.digits_value].
  - rewrite Hc; reflexivity.
  - destruct (scanner.is_digit x); [apply IH | reflexivity].
Qed.

Lemma ParseInt_not_integer (ip rest : string) (c : ascii) :
  c = "."%char \/ c = "e"%char \/ c = "E"%char ->
  strconv.ParseInt (ip ++ String c rest) = None.
Proof.
  intros Hc.
  assert (scanner.is_digit c = false) as Hd
      by (destruct Hc as [-> | [-> | ->]]; reflexivity).
  assert (forall (a : string) (neg : bool),
             match a ++ String c rest with
             | EmptyString => @None Z
             | _ =>
               match strconv.digits_value 0 (a ++ String c rest) with
               | None => None
               | Some n =>
                 let z := if neg then Z.opp (Z.of_N n) else Z.of_N n in
                 if (Z.leb (- 2 ^ 63) z && Z.ltb z (2 ^ 63))%bool
                 then Some z else None
               end
             end = None) as H.
  { intros a neg; rewrite digits_value_stops by assumption.
    destruct (a ++ String c rest); reflexivity. }
  unfold strconv.ParseInt.
  destruct ip as [|x ip].
  - cbn [append].
    assert (match String c rest with
            | String "-"%char t => (true, t)
            | String "+"%char t => (false, t)
            | _ => (false, String c rest)
            end = (false, String c rest)) as ->
        by (destruct Hc as [-> | [-> | ->]]; reflexivity).
    apply (H "" false).
  - cbn [append].
    destruct (Ascii.eqb_spec x "-"%char) as [-> | N1]; [apply (H ip true)|].
    destruct (Ascii.eqb_spec x "+"%char) as [-> | N2]; [apply (H ip false)|].
    assert (match String x (ip ++ String c rest) with
            | String "-"%char t => (true, t)
            | String "+"%char t => (false, t)
            | _ => (false, String x (ip ++ String c rest))
            end = (false, String x (ip ++ String c rest))) as ->.
    { destruct x as [[] [] [] [] [] [] [] []]; try reflexivity; congruence. }
    apply (H (String x ip) false).
Qed.

Section NotIntegers.
#[local] Arguments strconv.ParseInt : simpl never.

(** X20: a limit of [InfoResp.Results] written with a fraction or an
    exponent, be its value integral as in 1.0 or 1e3, is not stored in
    the [int] field (which keeps its zero) and is recorded as an
    [UnmarshalTypeError] that quotes the literal. *)
Theorem limit_with_fraction_or_exponent_is_rejected :
  forall (name : string) (ip rest : string) (c : ascii),
    In name ["max_image_size"; "max_video_size"; "max_image_bytes";
             "max_video_bytes"; "max_video_duration"; "max_video_batch_size";
             "min_video_size"; "min_image_size"; "max_batch_size"] ->
    c = "."%char \/ c = "e"%char \/ c = "E"%char ->
    InfoResp_Results.decode (JObject [(name, JNumber (ip ++ String c rest))])
                            InfoResp_Results.zero fresh
    = (InfoResp_Results.zero,
       saveError (UnmarshalTypeError ("number " ++ ip ++ String c rest) "int")
                 fresh).
Proof.
  intros name ip rest c H Hc.
  pose proof (ParseInt_not_integer ip rest c Hc) as P.
  cbn in H; repeat (destruct H as [<- | H]; [cbn; rewrite P; reflexivity|]).
  contradiction.
Qed.
End NotIntegers.

Lemma limit_with_fraction_or_exponent_is_rejected_witness :
  InfoResp_Results.decode (JObject [("max_batch_size", JNumber "128.0")])
                          InfoResp_Results.zero fresh
  = (InfoResp_Results.zero,
     saveError (UnmarshalTypeError "number 128.0" "int") fresh).
Proof.
  apply (limit_with_fraction_or_exponent_is_rejected
           "max_batch_size" "128" "0" "."%char).
  - cbn; tauto.
  - left; reflexivity.
Defined.
